(** * cfit: caching protocol and closed-form shapes (Gauss, Argus, Decay3BodyCP, Minimizer)

    A shallow embedding of the parts of cfit that take part in the per-dataset
    cache protocol:
    - [Gauss] and [Argus] (models/gauss.cc, models/argus.cc),
    - the norm-component setters of [Decay3BodyCP] (models/decay3bodycp.hh),
    - [Minimizer::cache] (minimizer.hh),
    - the static counters of [PdfBase] (pdfbase.hh).

    A C++ [double] is a binary64 float ([PrimFloat.float]); [unsigned] is an
    [N] below [2^32] with its wrap-around written out; [std::map] is a [gmap];
    [std::vector] is a [list], read with [!!] so that an out-of-range
    [operator[]] (undefined behaviour in C++) shows up as [None]; a call that
    flows off the end of a function with a return type is undefined as well,
    and shows up as [None] too. *)

From Stdlib Require Import ZArith NArith Floats Sorted.
From stdpp Require Import base option list strings gmap fin_maps.

(** ** Doubles *)

Abbreviation double := PrimFloat.float.

(** [std::complex<double>]. *)
Record complex := mkComplex { re : double; im : double }.

(** [std::max] and [std::min] as <algorithm> defines them:
    [max(a,b) = (a < b) ? b : a] and [min(a,b) = (b < a) ? b : a]. *)
Definition std_max (a b : double) : double := if (a <? b)%float then b else a.
Definition std_min (a b : double) : double := if (b <? a)%float then b else a.

(** [M_PI] of <cmath>: the double nearest to pi. *)
Definition M_PI : double := 0x1.921fb54442d18p+1%float.

(** The transcendental functions the models call.  [std::exp] and [std::pow]
    come from the C library, [Math::erf] and [Math::gamma_p] from cfit/math.hh;
    none of them is part of the sources embedded here, so the models are
    parameterised by them.  [std::sqrt] is the correctly rounded IEEE square
    root, [PrimFloat.sqrt]. *)
Class Libm := {
  std_exp      : double -> double;
  std_pow      : double -> double -> double;
  Math_erf     : double -> double;
  Math_gamma_p : double -> double -> double
}.

(** ** Unsigned counters *)

Definition UINT_MOD : N := 4294967296.

(** [n++] on an [unsigned]: the successor modulo [2^32]. *)
Definition uint_succ (n : N) : N := ((n + 1) mod UINT_MOD)%N.

(** ** Collaborators that cfit declares outside the embedded sources *)

(** Modelled from the spec: [Variable] (cfit/variable.hh), a named observable
    with a current value. *)
Record cfit_Variable := mkVariable { var_name : string; var_value : double }.

(** Modelled from the spec: [Parameter] (cfit/parameter.hh), a named scalar
    with a current value, an uncertainty and a fixed/floating flag. *)
Record cfit_Parameter := mkParameter {
  par_name  : string;
  par_value : double;
  par_error : double;
  isFixed   : bool
}.

(** [Parameter::release()] and [Parameter::fix()]: flip the flag only. *)
Definition setFixed (b : bool) (p : cfit_Parameter) : cfit_Parameter :=
  {| par_name := par_name p; par_value := par_value p;
     par_error := par_error p; isFixed := b |}.

(** Modelled from the spec: [ParameterExpr] (cfit/parameterexpr.hh), known here
    only through [evaluate()]; it is represented by the value it evaluates to. *)
Record ParameterExpr := mkParameterExpr { pe_evaluate : double }.

Definition ParameterExpr_of (p : cfit_Parameter) : ParameterExpr :=
  {| pe_evaluate := par_value p |}.

(** Modelled from the spec: [Dataset] (cfit/dataset.hh), an ordered, fixed-size
    collection of entries holding named variable values, read through
    [size()] and [value( name, entry )]. *)
Record Dataset := mkDataset {
  ds_size  : nat;
  ds_value : string -> nat -> double
}.

(** The exception class of cfit/exceptions.hh. *)
Inductive PdfException := PdfException_what (msg : string).

(** The static members of [PdfBase]: one pair of counters per process. *)
Record PdfBase_static := mkStatic {
  _cacheIdxReal    : N;
  _cacheIdxComplex : N
}.

(** [PdfBase::cacheComplex] is virtual and its body in pdfbase.hh is [{}]:
    control flows off the end of a function that returns a [std::map], and
    the call is undefined. *)
Definition PdfBase_cacheComplex (data : Dataset) : option (gmap N (list complex)) :=
  None.

(** The data members and the inline members of [PdfBase] (pdfbase.hh).  The
    two [std::map]s are keyed by name. *)
Module PdfBase.

Record t := mk {
  _varMap : gmap string cfit_Variable;
  _parMap : gmap string cfit_Parameter
}.

Definition getVars (b : t) : gmap string cfit_Variable  := _varMap b.
Definition getPars (b : t) : gmap string cfit_Parameter := _parMap b.

(** [nVars()] and [nPars()] return [size()] as an [unsigned]. *)
Definition nVars (b : t) : N := (N.of_nat (size (_varMap b)) mod UINT_MOD)%N.
Definition nPars (b : t) : N := (N.of_nat (size (_parMap b)) mod UINT_MOD)%N.

(** [isFixed()]: [std::all_of] over the entries of [_parMap], asking each
    parameter for [isFixed()]. *)
Definition isFixed (b : t) : bool :=
  forallb (λ par : string * cfit_Parameter, isFixed par.2) (map_to_list (_parMap b)).

(** [evaluate( const double& value )], for the models that do not override
    it. *)
Definition evaluate_value (b : t) (value : double) : PdfException + double :=
  inl (PdfException_what
    "PdfBase::evaluate: evaluate( value ) has been called on a pdf with more than one variable.").

End PdfBase.

(** ** Gauss (models/gauss.cc) *)

Module Gauss.

(** [getVar(0)], [getPar(0)] and [getPar(1)] are what [push( x )],
    [push( mu )] and [push( sigma )] stored in the base class [PdfModel];
    [_mu] and [_sigma] are the expressions that [mu()] and [sigma()]
    evaluate. *)
Record t := mk {
  var0      : cfit_Variable;
  par0      : cfit_Parameter;
  par1      : cfit_Parameter;
  _mu       : ParameterExpr;
  _sigma    : ParameterExpr;
  _hasLower : bool;
  _hasUpper : bool;
  _lower    : double;
  _upper    : double;
  _norm     : double;
  _doCache  : bool;
  _cacheIdx : N
}.

Definition getVar (g : t) (i : nat) : cfit_Variable := var0 g.

Definition getPar (g : t) (i : nat) : cfit_Parameter :=
  match i with O => par0 g | S _ => par1 g end.

Definition mu    (g : t) : double := pe_evaluate (_mu g).
Definition sigma (g : t) : double := pe_evaluate (_sigma g).

Definition set_norm (v : double) (g : t) : t :=
  mk (var0 g) (par0 g) (par1 g) (_mu g) (_sigma g) (_hasLower g) (_hasUpper g)
     (_lower g) (_upper g) v (_doCache g) (_cacheIdx g).

Definition set_doCache (b : bool) (g : t) : t :=
  mk (var0 g) (par0 g) (par1 g) (_mu g) (_sigma g) (_hasLower g) (_hasUpper g)
     (_lower g) (_upper g) (_norm g) b (_cacheIdx g).

Definition set_cacheIdx (i : N) (g : t) : t :=
  mk (var0 g) (par0 g) (par1 g) (_mu g) (_sigma g) (_hasLower g) (_hasUpper g)
     (_lower g) (_upper g) (_norm g) (_doCache g) i.

Definition set_limits (hl hu : bool) (lo up : double) (g : t) : t :=
  mk (var0 g) (par0 g) (par1 g) (_mu g) (_sigma g) hl hu lo up
     (_norm g) (_doCache g) (_cacheIdx g).

(** A parameter of the model is fixed or released by the user
    ([Parameter::fix], [Parameter::release] through the model's map). *)
Definition set_par (i : nat) (p : cfit_Parameter) (g : t) : t :=
  match i with
  | O   => mk (var0 g) p (par1 g) (_mu g) (_sigma g) (_hasLower g) (_hasUpper g)
              (_lower g) (_upper g) (_norm g) (_doCache g) (_cacheIdx g)
  | S _ => mk (var0 g) (par0 g) p (_mu g) (_sigma g) (_hasLower g) (_hasUpper g)
              (_lower g) (_upper g) (_norm g) (_doCache g) (_cacheIdx g)
  end.

Section WithLibm.
Context {L : Libm}.

(** [void Gauss::cache()]: recomputes [_norm], nothing else. *)
Definition cache (g : t) : t :=
  let vmu    := mu g in
  let vsigma := sigma g in
  let sqrt2  := PrimFloat.sqrt 2 in
  let argmin :=
    if _hasLower g
    then (1 + Math_erf ((_lower g - vmu) / (vsigma * sqrt2)))%float
    else 0%float in
  let argmax :=
    if _hasUpper g
    then (1 + Math_erf ((_upper g - vmu) / (vsigma * sqrt2)))%float
    else 2%float in
  let factor := (vsigma * PrimFloat.sqrt (M_PI / 2))%float in
  set_norm (factor * (argmax - argmin))%float g.

(** [Gauss::Gauss( x, mu, sigma )] *)
Definition new (x : cfit_Variable) (pmu psigma : cfit_Parameter) : t :=
  cache (mk x pmu psigma (ParameterExpr_of pmu) (ParameterExpr_of psigma)
            false false 0%float 0%float 0%float false 0%N).

Definition setLowerLimit (lower : double) (g : t) : t :=
  cache (set_limits true (_hasUpper g) lower (_upper g) g).

Definition setUpperLimit (upper : double) (g : t) : t :=
  cache (set_limits (_hasLower g) true (_lower g) upper g).

Definition setLimits (lower upper : double) (g : t) : t :=
  cache (set_limits true true lower upper g).

Definition unsetLowerLimit (g : t) : t :=
  cache (set_limits false (_hasUpper g) (_lower g) (_upper g) g).

Definition unsetUpperLimit (g : t) : t :=
  cache (set_limits (_hasLower g) false (_lower g) (_upper g) g).

Definition unsetLimits (g : t) : t :=
  cache (set_limits false false (_lower g) (_upper g) g).

(** [const double Gauss::evaluate( const double& x ) const] *)
Definition evaluate (g : t) (x : double) : double :=
  (std_exp (-0.5 * std_pow (x - mu g) 2 / std_pow (sigma g) 2) / _norm g)%float.

(** [evaluate( const std::vector< double >& vars )]: reads [vars[ 0 ]]. *)
Definition evaluate_vars (g : t) (vars : list double) : option double :=
  x ← vars !! 0%nat; Some (evaluate g x).

(** [evaluate( vars, cacheR, cacheC )]: the cached path. *)
Definition evaluate_cached (g : t) (vars cacheR : list double)
    (cacheC : list complex) : option double :=
  if negb (_doCache g) then evaluate_vars g vars
  else cacheR !! N.to_nat (_cacheIdx g).

(** One turn of the loop of [cacheReal]:
    [cached[ _cacheIdx ].push_back( evaluate( data.value( varname, entry ) ) )].
    [operator[]] creates the empty vector the first time the key is read. *)
Definition cacheReal_step (g : t) (data : Dataset) (varname : string)
    (cached : gmap N (list double)) (entry : nat) : gmap N (list double) :=
  <[ _cacheIdx g := default [] (cached !! _cacheIdx g)
                      ++ [evaluate g (ds_value data varname entry)] ]> cached.

(** [Gauss::cacheReal( const Dataset& data )].  The model and the static
    counter are both written, so both are returned with the map. *)
Definition cacheReal (g : t) (st : PdfBase_static) (data : Dataset)
    : t * PdfBase_static * gmap N (list double) :=
  let g1 := set_doCache (isFixed (getPar g 0) && isFixed (getPar g 1)) g in
  let cached : gmap N (list double) := ∅ in
  if negb (_doCache g1) then (g1, st, cached)
  else
    let g2  := set_cacheIdx (_cacheIdxReal st) g1 in
    let st2 := mkStatic (uint_succ (_cacheIdxReal st)) (_cacheIdxComplex st) in
    let varname := var_name (getVar g2 0) in
    let size := ds_size data in
    (g2, st2, foldl (cacheReal_step g2 data varname) cached (seq 0 size)).

(** [const double Gauss::area( const double& min, const double& max ) const] *)
Definition area (g : t) (min max : double) : double :=
  let vmu    := mu g in
  let vsigma := sigma g in
  let sqrt2  := PrimFloat.sqrt 2 in
  let xmin := if _hasLower g then std_max min (_lower g) else min in
  let xmax := if _hasUpper g then std_min max (_upper g) else max in
  let argmin := Math_erf ((xmin - vmu) / (vsigma * sqrt2))%float in
  let argmax := Math_erf ((xmax - vmu) / (vsigma * sqrt2))%float in
  let factor := (vsigma * PrimFloat.sqrt (M_PI / 2))%float in
  ((argmax - argmin) * factor / _norm g)%float.

End WithLibm.
End Gauss.


(** ** Argus (models/argus.cc) *)

Module Argus.

Record t := mk {
  var0      : cfit_Variable;
  par0      : cfit_Parameter;
  par1      : cfit_Parameter;
  _c        : ParameterExpr;
  _chi      : ParameterExpr;
  _hasLower : bool;
  _hasUpper : bool;
  _lower    : double;
  _upper    : double;
  _norm     : double
}.

Definition c   (a : t) : double := pe_evaluate (_c a).
Definition chi (a : t) : double := pe_evaluate (_chi a).

Definition set_norm (v : double) (a : t) : t :=
  mk (var0 a) (par0 a) (par1 a) (_c a) (_chi a) (_hasLower a) (_hasUpper a)
     (_lower a) (_upper a) v.

Definition set_limits (hl hu : bool) (lo up : double) (a : t) : t :=
  mk (var0 a) (par0 a) (par1 a) (_c a) (_chi a) hl hu lo up (_norm a).

(** How a call of a [void] member function ends. *)
Inductive outcome :=
| Returned
| Thrown (e : PdfException).

Definition lower_msg : string :=
  "Cannot set the lower limit of the Argus distribution to anything smaller than 0.".
Definition upper_msg : string :=
  "Cannot set the upper limit of the generalized Argus distribution to anything smaller than 0.".

Section WithLibm.
Context {L : Libm}.

(** [void Argus::cache()] *)
Definition cache (a : t) : t :=
  let vc    := c a in
  let cSq   := std_pow (c a) 2 in
  let chiSq := std_pow (chi a) 2 in
  let lower := if _hasLower a then std_max (_lower a) 0 else 0%float in
  let upper := if _hasUpper a then std_min (_upper a) vc else vc in
  let argmax := if _hasLower a then (1 - std_pow (lower / vc) 2)%float else 1%float in
  let argmin := if _hasUpper a then (1 - std_pow (upper / vc) 2)%float else 0%float in
  if (chiSq =? 0)%float then
    set_norm (cSq / 3 * (std_pow argmax 1.5 - std_pow argmin 1.5))%float a
  else
    let chi3 := std_pow (chi a) 3 in
    let norm1 := (cSq / (2 * chi3) * PrimFloat.sqrt (M_PI / 2))%float in
    set_norm (norm1 * (Math_gamma_p 1.5 (chiSq * argmax)
                       - Math_gamma_p 1.5 (chiSq * argmin)))%float a.

(** [Argus::Argus( x, c, chi )] *)
Definition new (x : cfit_Variable) (pc pchi : cfit_Parameter) : t :=
  cache (mk x pc pchi (ParameterExpr_of pc) (ParameterExpr_of pchi)
            false false 0%float 0%float 0%float).

(** The setters return the object as the call leaves it, and how it ended. *)
Definition setLowerLimit (lower : double) (a : t) : t * outcome :=
  if (lower <? 0)%float then (a, Thrown (PdfException_what lower_msg))
  else (cache (set_limits true (_hasUpper a) lower (_upper a) a), Returned).

Definition setUpperLimit (upper : double) (a : t) : t * outcome :=
  if (upper <? 0)%float then (a, Thrown (PdfException_what upper_msg))
  else (cache (set_limits (_hasLower a) true (_lower a) upper a), Returned).

Definition setLimits (lower upper : double) (a : t) : t * outcome :=
  if (lower <? 0)%float then (a, Thrown (PdfException_what lower_msg))
  else if (upper <? 0)%float then (a, Thrown (PdfException_what upper_msg))
  else (cache (set_limits true true lower upper a), Returned).

Definition unsetLowerLimit (a : t) : t :=
  cache (set_limits false (_hasUpper a) (_lower a) (_upper a) a).

Definition unsetUpperLimit (a : t) : t :=
  cache (set_limits (_hasLower a) false (_lower a) (_upper a) a).

Definition unsetLimits (a : t) : t :=
  cache (set_limits false false (_lower a) (_upper a) a).

(** [const double Argus::evaluate( const double& x ) const] *)
Definition evaluate (a : t) (x : double) : double :=
  let vc   := c a in
  let vchi := chi a in
  if _hasLower a && (x <? _lower a)%float then 0%float
  else if _hasUpper a && (_upper a <? x)%float then 0%float
  else if (x <? 0)%float || (vc <? x)%float then 0%float
  else
    let cSq   := std_pow vc 2 in
    let chiSq := std_pow vchi 2 in
    let xSq   := std_pow x 2 in
    let diff  := (1 - xSq / cSq)%float in
    (x * PrimFloat.sqrt diff * std_exp (- chiSq * diff) / _norm a)%float.

Definition evaluate_vars (a : t) (vars : list double) : option double :=
  x ← vars !! 0%nat; Some (evaluate a x).

(** [const double Argus::area( const double& min, const double& max ) const] *)
Definition area (a : t) (min max : double) : double :=
  let vc    := c a in
  let cSq   := std_pow (c a) 2 in
  let chiSq := std_pow (chi a) 2 in
  let lower := if _hasLower a then std_max (_lower a) 0 else 0%float in
  let upper := if _hasUpper a then std_min (_upper a) vc else vc in
  let xmin := std_max min lower in
  let xmax := std_min max upper in
  let argmax := if _hasLower a then (1 - std_pow (xmin / vc) 2)%float else 1%float in
  let argmin := if _hasUpper a then (1 - std_pow (xmax / vc) 2)%float else 0%float in
  if (chiSq =? 0)%float then
    (cSq / 3 * (std_pow argmax 1.5 - std_pow argmin 1.5) / _norm a)%float
  else
    let chi3 := std_pow (chi a) 3 in
    let retval := (cSq / (2 * chi3) * PrimFloat.sqrt (M_PI / 2))%float in
    (retval * ((Math_gamma_p 1.5 (chiSq * argmax)
                - Math_gamma_p 1.5 (chiSq * argmin)) / _norm a))%float.

End WithLibm.
End Argus.

(** ** Decay3BodyCP (models/decay3bodycp.hh) *)

(** Modelled from the spec: [Amplitude] (cfit/amplitude.hh), of which the
    setters below use [isFixed()] only: whether all the parameters of its
    coefficients are currently fixed. *)
Record Amplitude := mkAmplitude { amp_pars : list cfit_Parameter }.

Definition Amplitude_isFixed (a : Amplitude) : bool := forallb isFixed (amp_pars a).

Module Decay3BodyCP.

(** The data members with a type declared in the embedded sources or in the
    standard library; [_ps], [_z] and [_funcs] are left out. *)
Record t := mk {
  _amp         : Amplitude;
  _hasKappa    : bool;
  _kappa       : cfit_Parameter;
  _nDir        : double;
  _nCnj        : double;
  _nXed        : complex;
  _norm        : double;
  _fixedAmp    : bool;
  _maxPdf      : double;
  _cacheAmps   : bool;
  _ampDirCache : N;
  _ampCnjCache : N
}.

Definition nDir (d : t) : double  := _nDir d.
Definition nCnj (d : t) : double  := _nCnj d.

Definition set_fixedAmp (b : bool) (d : t) : t :=
  mk (_amp d) (_hasKappa d) (_kappa d) (_nDir d) (_nCnj d) (_nXed d) (_norm d)
     b (_maxPdf d) (_cacheAmps d) (_ampDirCache d) (_ampCnjCache d).

Definition set_components (vDir vCnj : double) (vXed : complex) (d : t) : t :=
  mk (_amp d) (_hasKappa d) (_kappa d) vDir vCnj vXed (_norm d)
     (_fixedAmp d) (_maxPdf d) (_cacheAmps d) (_ampDirCache d) (_ampCnjCache d).

(** [setNormComponents( nDir, nCnj, nXed )] *)
Definition setNormComponents3 (vDir vCnj : double) (vXed : complex) (d : t) : t :=
  let d1 := set_fixedAmp (Amplitude_isFixed (_amp d)) d in
  if _fixedAmp d1 then set_components vDir vCnj vXed d1 else d1.

(** [setNormComponents( nDir, nXed )] *)
Definition setNormComponents2 (vDir : double) (vXed : complex) (d : t) : t :=
  let d1 := set_fixedAmp (Amplitude_isFixed (_amp d)) d in
  if _fixedAmp d1 then set_components vDir vDir vXed d1 else d1.

(** [void setMaxPdf( const double& max )] *)
Definition setMaxPdf (max : double) (d : t) : t :=
  mk (_amp d) (_hasKappa d) (_kappa d) (_nDir d) (_nCnj d) (_nXed d) (_norm d)
     (_fixedAmp d) max (_cacheAmps d) (_ampDirCache d) (_ampCnjCache d).

End Decay3BodyCP.

(** ** Minimizer (minimizer.hh) *)

Module Minimizer.

(** [_pdf] is a reference to the model under fit, here the Gauss model. *)
Record t := mk {
  _pdf    : Gauss.t;
  _data   : Dataset;
  _cacheR : gmap N (list double);
  _cacheC : gmap N (list complex);
  _up     : double
}.

(** [Minimizer( pdf, data )] *)
Definition new (pdf : Gauss.t) (data : Dataset) : t :=
  mk pdf data ∅ ∅ (-1)%float.

Definition setUp (up : double) (m : t) : t :=
  mk (_pdf m) (_data m) (_cacheR m) (_cacheC m) up.

(** [std::map::insert( first, last )] keeps the value of a key that is
    already present: a left-biased union. *)
Definition map_insert_range {V} (m cached : gmap N V) : gmap N V := m ∪ cached.

Section WithLibm.
Context {L : Libm}.

(** [void Minimizer::cache()].  [_pdf] is a [PdfBase&], and
    [_pdf.cacheComplex( _data )] is a virtual call.  The headers of the model
    classes (pdfmodel.hh, models/gauss.hh) are not among the embedded sources,
    so the member that the call reaches is an argument, [cacheComplex]: it
    gives the map the call returns, or [None] when the call is undefined, as
    it is for a model that inherits [PdfBase_cacheComplex].  The call comes
    after [cacheReal]; when it is undefined so is [cache()]. *)
Definition cache (cacheComplex : Dataset → option (gmap N (list complex)))
    (m : t) (st : PdfBase_static) : option (t * PdfBase_static) :=
  let '(pdf, st1, cachedR) := Gauss.cacheReal (_pdf m) st (_data m) in
  cachedC ← cacheComplex (_data m);
  Some (mk pdf (_data m) (map_insert_range (_cacheR m) cachedR)
           (map_insert_range (_cacheC m) cachedC) (_up m), st1).

End WithLibm.

(** Modelled from the spec: the per-entry real cache slice that the concrete
    minimizers (which are not among the embedded sources) pass to
    [evaluate( vars, cacheR, cacheC )]: position [idx] holds the value stored
    for that entry under the key [idx]. *)
Definition is_slice (cacheR : list double) (store : gmap N (list double))
    (entry : nat) : Prop :=
  ∀ idx vals, store !! idx = Some vals → cacheR !! N.to_nat idx = vals !! entry.

End Minimizer.

(** ** Vocabulary of the properties *)

(** A double is negative when it is a finite number or an infinity with the
    sign bit set; neither of the zeros nor NaN is. *)
Definition is_negative (x : double) : bool :=
  match Prim2SF x with
  | S754_infinity true | S754_finite true _ _ => true
  | _ => false
  end.

(** A double that is neither a zero, nor an infinity, nor NaN. *)
Definition finite_nonzero (x : double) : bool :=
  match Prim2SF x with
  | S754_finite _ _ _ => true
  | _ => false
  end.

Definition throws (o : Argus.outcome) : Prop := ∃ e, o = Argus.Thrown e.

Section Vocabulary.
Context {L : Libm}.

(** The density of the model at every entry of the dataset, in entry order. *)
Definition entry_values (g : Gauss.t) (data : Dataset) : list double :=
  map (λ entry, Gauss.evaluate g (ds_value data (var_name (Gauss.getVar g 0)) entry))
      (seq 0 (ds_size data)).

(** What [Gauss::cacheReal] returns for a model whose parameters are fixed,
    when [idx] is the index it took from the counter. *)
Definition cached_under (idx : N) (g : Gauss.t) (data : Dataset)
    : gmap N (list double) :=
  match ds_size data with
  | O => ∅
  | S _ => {[ idx := entry_values g data ]}
  end.

(** A fit session: the models of a composite fit are asked for their real
    cache one after the other, each with its dataset, and share the static
    counter. *)
Fixpoint cacheReal_all (calls : list (Gauss.t * Dataset)) (st : PdfBase_static)
    : list Gauss.t * PdfBase_static :=
  match calls with
  | [] => ([], st)
  | (g, data) :: rest =>
      let '(g', st', _) := Gauss.cacheReal g st data in
      let '(gs, st'') := cacheReal_all rest st' in
      (g' :: gs, st'')
  end.

End Vocabulary.

Definition cacheable (g : Gauss.t) : bool :=
  isFixed (Gauss.getPar g 0) && isFixed (Gauss.getPar g 1).

(** The cache indices held by the models that cache, in call order. *)
Definition assigned (gs : list Gauss.t) : list N :=
  map Gauss._cacheIdx (filter (λ g, Gauss._doCache g = true) gs).

Section Built.
Context {L : Libm}.

(** The Gauss objects a program gets from the constructor, the six limit
    members and [cacheReal]. *)
Inductive Gauss_built : Gauss.t → Prop :=
| Gauss_built_new x pmu psigma :
    Gauss_built (Gauss.new x pmu psigma)
| Gauss_built_setLowerLimit lower g :
    Gauss_built g → Gauss_built (Gauss.setLowerLimit lower g)
| Gauss_built_setUpperLimit upper g :
    Gauss_built g → Gauss_built (Gauss.setUpperLimit upper g)
| Gauss_built_setLimits lower upper g :
    Gauss_built g → Gauss_built (Gauss.setLimits lower upper g)
| Gauss_built_unsetLowerLimit g :
    Gauss_built g → Gauss_built (Gauss.unsetLowerLimit g)
| Gauss_built_unsetUpperLimit g :
    Gauss_built g → Gauss_built (Gauss.unsetUpperLimit g)
| Gauss_built_unsetLimits g :
    Gauss_built g → Gauss_built (Gauss.unsetLimits g)
| Gauss_built_cacheReal g st data :
    Gauss_built g → Gauss_built (Gauss.cacheReal g st data).1.1.

(** The Argus objects a program gets from the constructor and the six limit
    members, whether a setter returned or threw. *)
Inductive Argus_built : Argus.t → Prop :=
| Argus_built_new x pc pchi :
    Argus_built (Argus.new x pc pchi)
| Argus_built_setLowerLimit lower a :
    Argus_built a → Argus_built (Argus.setLowerLimit lower a).1
| Argus_built_setUpperLimit upper a :
    Argus_built a → Argus_built (Argus.setUpperLimit upper a).1
| Argus_built_setLimits lower upper a :
    Argus_built a → Argus_built (Argus.setLimits lower upper a).1
| Argus_built_unsetLowerLimit a :
    Argus_built a → Argus_built (Argus.unsetLowerLimit a)
| Argus_built_unsetUpperLimit a :
    Argus_built a → Argus_built (Argus.unsetUpperLimit a)
| Argus_built_unsetLimits a :
    Argus_built a → Argus_built (Argus.unsetLimits a).

(** The bounds that [Argus::cache] and [Argus::area] integrate between. *)
Definition Argus_lower (a : Argus.t) : double :=
  if Argus._hasLower a then std_max (Argus._lower a) 0 else 0%float.
Definition Argus_upper (a : Argus.t) : double :=
  if Argus._hasUpper a then std_min (Argus._upper a) (Argus.c a) else Argus.c a.

End Built.

(** The [k]-th index handed out from a counter that stands at [start]. *)
Definition nth_index (start : N) (k : nat) : N :=
  ((start + N.of_nat k) mod UINT_MOD)%N.

(** ** A software libm to run the models

    The theorems below hold for every [Libm].  To evaluate the models on
    concrete inputs some instance is needed: this one computes the four
    functions with short series.  [pow] covers the exponents the models use
    (2, 3 and 1.5) and agrees with Annex F of the C standard on the exact
    cases [pow( +0, 2 ) = +0], [pow( 1, y ) = 1] and [pow( +0, 1.5 ) = +0]. *)

Module RefLibm.

Fixpoint exp_series (fuel : nat) (x k term acc : double) : double :=
  match fuel with
  | O => acc
  | S fuel' =>
      let term' := (term * x / k)%float in
      exp_series fuel' x (k + 1)%float term' (acc + term')%float
  end.

Fixpoint square_times (n : nat) (y : double) : double :=
  match n with
  | O => y
  | S n' => square_times n' (y * y)%float
  end.

(** [exp( x ) = exp( x / 2^10 )^(2^10)], the inner value by its Taylor sum. *)
Definition exp (x : double) : double :=
  square_times 10 (exp_series 20 (x / 1024)%float 1 1 1).

Definition pow (x y : double) : double :=
  if (y =? 2)%float then (x * x)%float
  else if (y =? 3)%float then (x * x * x)%float
  else if (y =? 1.5)%float then (x * PrimFloat.sqrt x)%float
  else PrimFloat.nan.

(** [erf( x ) = 2/sqrt(pi) * sum_n (-1)^n x^(2n+1) / ( n! (2n+1) )]. *)
Fixpoint erf_series (fuel : nat) (x2 n term acc : double) : double :=
  match fuel with
  | O => acc
  | S fuel' =>
      let term' := (- term * x2 / (n + 1))%float in
      erf_series fuel' x2 (n + 1)%float term'
                 (acc + term' / (2 * (n + 1) + 1))%float
  end.

Definition erf (x : double) : double :=
  (2 / PrimFloat.sqrt M_PI * erf_series 80 (x * x) 0 x x)%float.

(** The regularised lower incomplete gamma function at [a = 3/2]:
    [P( 3/2, x ) = erf( sqrt x ) - 2/sqrt(pi) * sqrt x * exp( -x )]. *)
Definition gamma_p (a x : double) : double :=
  if (a =? 1.5)%float
  then (erf (PrimFloat.sqrt x)
        - 2 / PrimFloat.sqrt M_PI * PrimFloat.sqrt x * exp (- x))%float
  else PrimFloat.nan.

#[export] Instance libm : Libm :=
  {| std_exp := exp; std_pow := pow; Math_erf := erf; Math_gamma_p := gamma_p |}.

End RefLibm.

(** ** Concrete models and datasets for the examples *)

Module Fixtures.
Import RefLibm.

Definition x : cfit_Variable := mkVariable "x" 0.

Definition mu_fixed    : cfit_Parameter := mkParameter "mu" 0 0.125 true.
Definition sigma_fixed : cfit_Parameter := mkParameter "sigma" 1 0.125 true.

(** A standard normal density with both parameters fixed. *)
Definition gauss01 : Gauss.t := Gauss.new x mu_fixed sigma_fixed.

(** The same model after [sigma] has been released. *)
Definition gauss01_floating : Gauss.t :=
  Gauss.set_par 1 (setFixed false sigma_fixed) gauss01.

(** Three entries with [x = -1, 0, 1]. *)
Definition data3 : Dataset :=
  mkDataset 3 (fun _ entry =>
    match entry with O => (-1)%float | S O => 0%float | _ => 1%float end).

Definition data0 : Dataset := mkDataset 0 (fun _ _ => 0%float).

Definition static0 : PdfBase_static := mkStatic 0 0.

(** The counters as they stand after [2^32 - 1] real caches were handed out. *)
Definition static_last : PdfBase_static := mkStatic 4294967295 0.

Definition argus (vc vchi : double) : Argus.t :=
  Argus.new x (mkParameter "c" vc 0.125 true) (mkParameter "chi" vchi 0.125 true).

Definition decay (fixed : bool) : Decay3BodyCP.t :=
  Decay3BodyCP.mk (mkAmplitude [mkParameter "a1" 1 0.125 true; mkParameter "a2" 2 0.125 fixed])
    false (mkParameter "kappa" 0 0 true) 1 1 (mkComplex 0 0) 1 false 0 false 0 0.

(** A [cacheComplex] that returns, with the empty map: what a model without
    complex amplitudes contributes when its class overrides the member. *)
Definition cacheComplex_empty (data : Dataset) : option (gmap N (list complex)) :=
  Some ∅.

(** A new minimizer for the standard normal density and the three entries,
    and what one and two calls of [cache()] leave of it. *)
Definition minimizer0 : Minimizer.t := Minimizer.new gauss01 data3.
Definition once : Minimizer.t * PdfBase_static :=
  default (minimizer0, static0) (Minimizer.cache cacheComplex_empty minimizer0 static0).

(** A minimizer whose storage already holds a sequence under the index 0. *)
Definition minimizer_stale : Minimizer.t :=
  Minimizer.mk gauss01 data3 {[ 0%N := [7%float; 8%float; 9%float] ]} ∅ (-1)%float.
Definition after_stale : Minimizer.t * PdfBase_static :=
  default (minimizer_stale, static0)
          (Minimizer.cache cacheComplex_empty minimizer_stale static0).

(** The standard normal density after [cacheReal] on the three entries. *)
Definition gauss01_cached : Gauss.t := (Gauss.cacheReal gauss01 static0 data3).1.1.

(** An Argus model with [c = 5], [chi = 0], truncated to [1, 4]. *)
Definition argus_1_4 : Argus.t := (Argus.setLimits 1 4 (argus 5 0)).1.

(** A base object with a fixed and a floating parameter. *)
Definition base2 : PdfBase.t :=
  PdfBase.mk {[ "x" := x ]}
    {[ "mu" := mu_fixed; "sigma" := setFixed false sigma_fixed ]}.

End Fixtures.

(** * Properties *)

(** ** Doubles *)

(** [x < 0] holds exactly for the negative doubles. *)
Lemma ltb_zero_is_negative (x : double) : (x <? 0)%float = is_negative x.
Proof.
  unfold is_negative. rewrite ltb_spec.
  change (Prim2SF 0) with (S754_zero false).
  destruct (Prim2SF x) as [[]|[]| |[] m e]; reflexivity.
Qed.

(** The core of the division of a finite non-zero double by itself: the
    quotient of the significands is [2^53], with nothing left to round. *)
Lemma SFdiv_core_self (m : positive) (e : Z) :
  SFdiv_core_binary prec emax (Zpos m) e (Zpos m) e
  = (9007199254740992%Z, (-53)%Z, SpecFloat.loc_Exact).
Proof.
  unfold SFdiv_core_binary.
  replace (Zdigits2 (Z.pos m) + e - (Zdigits2 (Z.pos m) + e))%Z with 0%Z by lia.
  replace (e - e)%Z with 0%Z by lia.
  change (Z.min (fexp prec emax 0) 0) with (-53)%Z.
  change (0 - -53)%Z with 53%Z.
  cbv beta iota zeta.
  rewrite Z.shiftl_mul_pow2 by lia.
  assert (Hq : Z.div_eucl (Z.pos m * 2 ^ 53) (Z.pos m) = (2 ^ 53, 0)%Z).
  { assert (Hd : ((Z.pos m * 2 ^ 53) `div` Z.pos m = 2 ^ 53)%Z)
      by (rewrite Z.mul_comm; apply Z.div_mul; lia).
    assert (Hm : ((Z.pos m * 2 ^ 53) `mod` Z.pos m = 0)%Z)
      by (rewrite Z.mul_comm; apply Z.mod_mul; lia).
    unfold Z.modulo, Z.div in Hd, Hm.
    destruct (Z.div_eucl (Z.pos m * 2 ^ 53) (Z.pos m)) as [q r].
    simpl in *. congruence. }
  rewrite Hq. unfold new_location, new_location_even, new_location_odd.
  destruct (Z.even (Z.pos m)); reflexivity.
Qed.

(** IEEE division of a double by itself: exactly one for a finite non-zero
    double, NaN for a zero, an infinity or NaN. *)
Lemma div_self (x : double) :
  (x / x)%float = if finite_nonzero x then 1%float else PrimFloat.nan.
Proof.
  unfold finite_nonzero. apply Prim2SF_inj. rewrite div_spec.
  destruct (Prim2SF x) as [[]|[]| |s m e]; try reflexivity.
  unfold SF64div, SFdiv. rewrite SFdiv_core_self.
  destruct s; reflexivity.
Qed.

Lemma nan_neq_one : PrimFloat.nan ≠ 1%float.
Proof. intros Heq. apply (f_equal Prim2SF) in Heq. discriminate Heq. Qed.

(** ** Gauss: the cache protocol *)

Section GaussCache.
Context {L : Libm}.

(** [evaluate] reads [_mu], [_sigma] and [_norm] only. *)
Lemma evaluate_ext (g g' : Gauss.t) (x : double) :
  Gauss._mu g' = Gauss._mu g → Gauss._sigma g' = Gauss._sigma g →
  Gauss._norm g' = Gauss._norm g →
  Gauss.evaluate g' x = Gauss.evaluate g x.
Proof.
  intros Hmu Hsigma Hnorm. unfold Gauss.evaluate, Gauss.mu, Gauss.sigma.
  by rewrite Hmu, Hsigma, Hnorm.
Qed.

Lemma entry_values_ext (g g' : Gauss.t) (data : Dataset) :
  Gauss.var0 g' = Gauss.var0 g →
  Gauss._mu g' = Gauss._mu g → Gauss._sigma g' = Gauss._sigma g →
  Gauss._norm g' = Gauss._norm g →
  entry_values g' data = entry_values g data.
Proof.
  intros Hvar Hmu Hsigma Hnorm. unfold entry_values, Gauss.getVar.
  rewrite Hvar. apply map_ext. intros entry.
  by apply evaluate_ext.
Qed.

Lemma entry_values_length (g : Gauss.t) (data : Dataset) :
  length (entry_values g data) = ds_size data.
Proof. unfold entry_values. by rewrite length_map, length_seq. Qed.

Lemma entry_values_lookup (g : Gauss.t) (data : Dataset) (entry : nat) :
  entry < ds_size data →
  entry_values g data !! entry
  = Some (Gauss.evaluate g (ds_value data (var_name (Gauss.getVar g 0)) entry)).
Proof.
  intros Hlt. unfold entry_values.
  rewrite list_lookup_fmap, lookup_seq_lt by done. reflexivity.
Qed.

(** The loop of [cacheReal], run over the entries [a, a+1, ..., a+n]:
    every value is appended to the vector under [_cacheIdx]. *)
Lemma cacheReal_loop (g : Gauss.t) (data : Dataset) (name : string) (n : nat) :
  ∀ (a : nat) (m : gmap N (list double)),
    foldl (Gauss.cacheReal_step g data name) m (seq a (S n))
    = <[ Gauss._cacheIdx g :=
           default [] (m !! Gauss._cacheIdx g)
           ++ map (λ entry, Gauss.evaluate g (ds_value data name entry)) (seq a (S n)) ]> m.
Proof.
  induction n as [|n IH]; intros a m.
  - reflexivity.
  - change (seq a (S (S n))) with (a :: seq (S a) (S n)).
    cbn [foldl map]. rewrite IH. unfold Gauss.cacheReal_step.
    rewrite lookup_insert_eq, insert_insert_eq. cbn [default].
    unfold id. by rewrite <- app_assoc.
Qed.

(** The map built by the loop from the empty map. *)
Lemma cacheReal_loop_empty (g : Gauss.t) (data : Dataset) :
  foldl (Gauss.cacheReal_step g data (var_name (Gauss.getVar g 0))) ∅
        (seq 0 (ds_size data))
  = cached_under (Gauss._cacheIdx g) g data.
Proof.
  unfold cached_under, entry_values.
  destruct (ds_size data) as [|n]; [reflexivity|].
  rewrite cacheReal_loop, lookup_empty. cbn [default app].
  by rewrite insert_empty.
Qed.

(** [cacheReal] in one equation. *)
Lemma cacheReal_unfold (g : Gauss.t) (st : PdfBase_static) (data : Dataset) :
  Gauss.cacheReal g st data
  = if cacheable g
    then (Gauss.set_cacheIdx (_cacheIdxReal st) (Gauss.set_doCache true g),
          mkStatic (uint_succ (_cacheIdxReal st)) (_cacheIdxComplex st),
          cached_under (_cacheIdxReal st) g data)
    else (Gauss.set_doCache false g, st, ∅).
Proof.
  unfold Gauss.cacheReal, cacheable.
  destruct (isFixed (Gauss.getPar g 0) && isFixed (Gauss.getPar g 1)); cbn.
  - rewrite cacheReal_loop_empty. cbn.
    unfold cached_under. by destruct (ds_size data).
  - reflexivity.
Qed.

End GaussCache.

Section GaussClaims.
Context {L : Libm}.

(** C1.  A Gauss model with [mu] and [sigma] fixed is cached with
    [cacheReal( data )].  For every entry of the dataset, when [vars] holds the
    entry's value of the model's variable and [cacheR] is the entry's slice of
    the map that [cacheReal] returned, the cached path
    [evaluate( vars, cacheR, cacheC )] returns the value of the direct
    [evaluate( vars )]. *)
Theorem gauss_cached_path_equals_direct
    (g : Gauss.t) (st : PdfBase_static) (data : Dataset) (entry : nat)
    (vars cacheR : list double) (cacheC : list complex) :
  let g' := (Gauss.cacheReal g st data).1.1 in
  let cached := (Gauss.cacheReal g st data).2 in
  cacheable g = true →
  entry < ds_size data →
  vars !! 0%nat = Some (ds_value data (var_name (Gauss.getVar g' 0)) entry) →
  Minimizer.is_slice cacheR cached entry →
  Gauss.evaluate_cached g' vars cacheR cacheC = Gauss.evaluate_vars g' vars
  ∧ is_Some (Gauss.evaluate_vars g' vars).
Proof.
  intros g' cached Hfixed Hentry Hvars Hslice. subst g' cached.
  rewrite cacheReal_unfold, Hfixed in *. cbn [fst snd] in *.
  set (g' := Gauss.set_cacheIdx _ _) in *.
  assert (Hdirect : Gauss.evaluate_vars g' vars
            = Some (Gauss.evaluate g (ds_value data (var_name (Gauss.getVar g 0)) entry))).
  { unfold Gauss.evaluate_vars. rewrite Hvars. reflexivity. }
  split; [|rewrite Hdirect; eauto].
  rewrite Hdirect. unfold Gauss.evaluate_cached. cbn.
  unfold Minimizer.is_slice, cached_under in Hslice.
  destruct (ds_size data) as [|n] eqn:Hsize; [lia|].
  rewrite (Hslice (_cacheIdxReal st) (entry_values g data))
    by apply lookup_singleton_eq.
  apply entry_values_lookup. lia.
Qed.

(** C3 (as amended).  [cacheReal( data )] returns the empty map when [mu] or
    [sigma] is floating.  When both are fixed it takes the current value of
    the counter [_cacheIdxReal] as the model's index and advances the counter;
    for a dataset with at least one entry the returned map has that index as its
    only key, with one value per entry, the density at the entry's value; for a
    dataset without entries the returned map is empty. *)
Theorem cacheReal_returns (g : Gauss.t) (st : PdfBase_static) (data : Dataset) :
  let g' := (Gauss.cacheReal g st data).1.1 in
  let st' := (Gauss.cacheReal g st data).1.2 in
  let cached := (Gauss.cacheReal g st data).2 in
  (cacheable g = false → cached = ∅ ∧ st' = st)
  ∧ (cacheable g = true →
       Gauss._cacheIdx g' = _cacheIdxReal st
       ∧ _cacheIdxReal st' = uint_succ (_cacheIdxReal st)
       ∧ (ds_size data ≠ 0%nat →
            cached = {[ _cacheIdxReal st := entry_values g data ]}
            ∧ length (entry_values g data) = ds_size data
            ∧ ∀ entry, entry < ds_size data →
                entry_values g data !! entry
                = Some (Gauss.evaluate g' (ds_value data (var_name (Gauss.getVar g' 0)) entry)))
       ∧ (ds_size data = 0%nat → cached = ∅)).
Proof.
  cbv zeta. rewrite cacheReal_unfold. split; intros Hfixed; rewrite Hfixed; cbn.
  - done.
  - split_and!; try done.
    + intros Hsize. unfold cached_under.
      destruct (ds_size data) as [|n] eqn:Hn; [done|].
      split_and!; [done| |].
      * by rewrite entry_values_length.
      * intros entry Hentry. rewrite entry_values_lookup by lia. reflexivity.
    + intros Hsize. unfold cached_under. by rewrite Hsize.
Qed.

(** C5 (as amended).  After a parameter of a Gauss model has been released,
    [Gauss::cache()] recomputes [_norm] and leaves [_doCache] as it was; it is
    [cacheReal( data )] that sets [_doCache] to false, returns an empty map and
    leaves the counter alone, and from then on the cached path
    [evaluate( vars, cacheR, cacheC )] is [evaluate( vars )] whatever the
    slices hold. *)
Theorem release_then_cacheReal_falls_back
    (g : Gauss.t) (i : nat) (st : PdfBase_static) (data : Dataset) :
  let released := Gauss.set_par i (setFixed false (Gauss.getPar g i)) g in
  let g' := (Gauss.cacheReal released st data).1.1 in
  Gauss._doCache (Gauss.cache released) = Gauss._doCache g
  ∧ Gauss._doCache g' = false
  ∧ (Gauss.cacheReal released st data).2 = ∅
  ∧ (Gauss.cacheReal released st data).1.2 = st
  ∧ ∀ vars cacheR cacheC,
      Gauss.evaluate_cached g' vars cacheR cacheC = Gauss.evaluate_vars g' vars.
Proof.
  cbv zeta. rewrite cacheReal_unfold.
  assert (Hfloat : cacheable (Gauss.set_par i (setFixed false (Gauss.getPar g i)) g) = false).
  { unfold cacheable. destruct i as [|i]; cbn; [done|]. apply andb_false_r. }
  rewrite Hfloat. cbn [fst snd].
  split_and!; try done.
  by destruct i.
Qed.

(** C7.  When [_doCache] is false the cached path returns exactly
    [evaluate( vars )]: the slices [cacheR] and [cacheC] are not read. *)
Theorem evaluate_cached_without_cache
    (g : Gauss.t) (vars cacheR cacheR' : list double) (cacheC cacheC' : list complex) :
  Gauss._doCache g = false →
  Gauss.evaluate_cached g vars cacheR cacheC = Gauss.evaluate_vars g vars
  ∧ Gauss.evaluate_cached g vars cacheR cacheC
    = Gauss.evaluate_cached g vars cacheR' cacheC'.
Proof.
  intros Hflag. unfold Gauss.evaluate_cached. by rewrite Hflag.
Qed.

End GaussClaims.

(** ** The static counter across a fit session *)

Lemma uint_succ_lt (n : N) : (uint_succ n < UINT_MOD)%N.
Proof. unfold uint_succ. by apply N.mod_lt. Qed.

Lemma nth_index_succ (start : N) (k : nat) :
  nth_index (uint_succ start) k = nth_index start (S k).
Proof.
  unfold nth_index, uint_succ.
  rewrite N.Div0.add_mod_idemp_l. f_equal. lia.
Qed.

Lemma nth_index_inj (start : N) (i j : nat) :
  (N.of_nat i < UINT_MOD)%N → (N.of_nat j < UINT_MOD)%N →
  nth_index start i = nth_index start j → i = j.
Proof.
  unfold nth_index, UINT_MOD. intros Hi Hj Heq.
  pose proof (N.div_mod (start + N.of_nat i) 4294967296) as Ei.
  pose proof (N.div_mod (start + N.of_nat j) 4294967296) as Ej.
  rewrite Heq in Ei. lia.
Qed.

Section Session.
Context {L : Libm}.

(** The indices of the models that cache are the values the counter runs
    through, one per model whose parameters are all fixed. *)
Lemma cacheReal_all_assigned (calls : list (Gauss.t * Dataset)) :
  ∀ st : PdfBase_static,
    (_cacheIdxReal st < UINT_MOD)%N →
    assigned (cacheReal_all calls st).1
    = map (nth_index (_cacheIdxReal st))
          (seq 0 (length (filter (λ g, cacheable g = true) (map fst calls)))).
Proof.
  induction calls as [|[g data] rest IH]; intros st Hst; [reflexivity|].
  cbn [cacheReal_all map fst]. rewrite cacheReal_unfold.
  destruct (cacheable g) eqn:Hfixed.
  - rewrite filter_cons_True by done.
    specialize (IH (mkStatic (uint_succ (_cacheIdxReal st)) (_cacheIdxComplex st))
                   (uint_succ_lt _)).
    destruct (cacheReal_all rest _) as [gs st''].
    cbn [fst length seq map] in *. unfold assigned in *.
    rewrite filter_cons_True by done. cbn [map]. rewrite IH. f_equal.
    + unfold nth_index. rewrite N.add_0_r. symmetry. by apply N.mod_small.
    + rewrite <- seq_shift, map_map. apply map_ext. intros k.
      apply nth_index_succ.
  - rewrite filter_cons_False by (by rewrite Hfixed).
    specialize (IH st Hst).
    destruct (cacheReal_all rest st) as [gs st''].
    cbn [fst] in *. unfold assigned in *.
    rewrite filter_cons_False by done. apply IH.
Qed.

(** C4 (as amended).  Over a sequence of [cacheReal] calls that share the
    counter [_cacheIdxReal], with [n] of the models having all parameters
    fixed: the indices of these models are strictly increasing in call order
    as long as the 32-bit counter does not wrap around ([start + n <= 2^32]),
    and pairwise distinct as long as [n <= 2^32]. *)
Theorem cache_indices_increase_until_wrap
    (calls : list (Gauss.t * Dataset)) (st : PdfBase_static) :
  let indices := assigned (cacheReal_all calls st).1 in
  let n := N.of_nat (length (filter (λ g, cacheable g = true) (map fst calls))) in
  (_cacheIdxReal st < UINT_MOD)%N →
  ((_cacheIdxReal st + n ≤ UINT_MOD)%N → StronglySorted N.lt indices)
  ∧ ((n ≤ UINT_MOD)%N → NoDup indices).
Proof.
  intros indices n Hst. subst indices n.
  rewrite cacheReal_all_assigned by done.
  set (n := length _). set (start := _cacheIdxReal st) in *.
  split; intros Hn.
  - assert (Hgen : ∀ len a, (a + len ≤ n)%nat →
              StronglySorted N.lt (map (nth_index start) (seq a len))).
    { induction len as [|len IHlen]; intros a Ha; cbn [seq map]; constructor.
      - apply IHlen. lia.
      - change (map ?f ?l) with (f <$> l).
        rewrite Forall_fmap, Forall_seq. intros k Hk. unfold compose, nth_index.
        rewrite !N.mod_small by (unfold UINT_MOD in *; lia). lia. }
    apply Hgen. lia.
  - change (map ?f ?l) with (f <$> l). apply NoDup_fmap_2_strong; [|apply NoDup_seq].
    intros i j Hi%elem_of_seq Hj%elem_of_seq. apply nth_index_inj; lia.
Qed.

End Session.

(** ** Minimizer::cache *)

Section MinimizerClaims.
Context {L : Libm}.

(** [cache()] returns exactly when the call of [cacheComplex] does, and then
    leaves the minimizer and the counters in this state. *)
Lemma minimizer_cache_Some
    (cacheComplex : Dataset → option (gmap N (list complex)))
    (m m' : Minimizer.t) (st st' : PdfBase_static) :
  Minimizer.cache cacheComplex m st = Some (m', st')
  ↔ ∃ cachedC,
      cacheComplex (Minimizer._data m) = Some cachedC
      ∧ m' = Minimizer.mk (Gauss.cacheReal (Minimizer._pdf m) st (Minimizer._data m)).1.1
               (Minimizer._data m)
               (Minimizer._cacheR m
                ∪ (Gauss.cacheReal (Minimizer._pdf m) st (Minimizer._data m)).2)
               (Minimizer._cacheC m ∪ cachedC) (Minimizer._up m)
      ∧ st' = (Gauss.cacheReal (Minimizer._pdf m) st (Minimizer._data m)).1.2.
Proof.
  unfold Minimizer.cache, Minimizer.map_insert_range.
  destruct (Gauss.cacheReal _ _ _) as [[pdf st1] cachedR]. cbn.
  destruct (cacheComplex (Minimizer._data m)) as [cachedC|]; cbn.
  - split.
    + intros [= <- <-]. by exists cachedC.
    + intros (c & [= <-] & -> & ->). done.
  - split; [done|]. by intros (c & Hc & _).
Qed.

Lemma minimizer_cache_None
    (cacheComplex : Dataset → option (gmap N (list complex)))
    (m : Minimizer.t) (st : PdfBase_static) :
  Minimizer.cache cacheComplex m st = None ↔ cacheComplex (Minimizer._data m) = None.
Proof.
  unfold Minimizer.cache.
  destruct (Gauss.cacheReal _ _ _) as [[pdf st1] cachedR]. cbn.
  by destruct (cacheComplex (Minimizer._data m)).
Qed.

(** Merging what [cacheReal] returns under an index the storage already has
    changes nothing. *)
Lemma union_cached_under_present
    (store : gmap N (list double)) (idx : N) (g : Gauss.t) (data : Dataset) :
  is_Some (store !! idx) → store ∪ cached_under idx g data = store.
Proof.
  intros [old Hold]. apply map_eq. intros k. rewrite lookup_union.
  destruct (store !! k) as [vals|] eqn:Hk.
  - by destruct (cached_under _ _ _ !! k).
  - assert (Hne : k ≠ idx) by (intros ->; congruence).
    assert (Hnone : cached_under idx g data !! k = None).
    { unfold cached_under. destruct (ds_size data); [done|].
      by apply lookup_singleton_ne. }
    by rewrite Hnone.
Qed.

(** Under an index the storage does not have, the values of a dataset with at
    least one entry are added. *)
Lemma union_cached_under_absent
    (store : gmap N (list double)) (idx : N) (g : Gauss.t) (data : Dataset) :
  store !! idx = None → ds_size data ≠ 0%nat →
  (store ∪ cached_under idx g data) !! idx = Some (entry_values g data).
Proof.
  intros Hnone Hsize. rewrite lookup_union_r by done.
  unfold cached_under. destruct (ds_size data); [done|].
  apply lookup_singleton_eq.
Qed.


End MinimizerClaims.

(** ** Argus *)

Section ArgusClaims.
Context {L : Libm}.

Lemma throws_Thrown (e : PdfException) : throws (Argus.Thrown e).
Proof. by exists e. Qed.

Lemma not_throws_Returned : ¬ throws Argus.Returned.
Proof. by intros [e He]. Qed.

(** C8.  [setLowerLimit], [setUpperLimit] and [setLimits] of Argus throw a
    [PdfException] exactly when a bound they are given is negative, and a call
    that throws leaves the object as it was: [_hasLower], [_hasUpper],
    [_lower], [_upper] and [_norm] keep their values. *)
Theorem argus_setters_throw_iff_negative (a : Argus.t) (lower upper : double) :
  (throws (Argus.setLowerLimit lower a).2 ↔ is_negative lower = true)
  ∧ (throws (Argus.setUpperLimit upper a).2 ↔ is_negative upper = true)
  ∧ (throws (Argus.setLimits lower upper a).2
       ↔ is_negative lower = true ∨ is_negative upper = true)
  ∧ (throws (Argus.setLowerLimit lower a).2 → (Argus.setLowerLimit lower a).1 = a)
  ∧ (throws (Argus.setUpperLimit upper a).2 → (Argus.setUpperLimit upper a).1 = a)
  ∧ (throws (Argus.setLimits lower upper a).2 → (Argus.setLimits lower upper a).1 = a).
Proof.
  unfold Argus.setLowerLimit, Argus.setUpperLimit, Argus.setLimits.
  rewrite !ltb_zero_is_negative.
  pose proof throws_Thrown as Hthrown. pose proof not_throws_Returned as Hreturned.
  destruct (is_negative lower), (is_negative upper); cbn [fst snd];
    split_and!; try split; try done; try (intros; exfalso; by eauto);
    try (intros; by eauto); try (intros [?|?]; done).
Qed.

(** [cache()] writes [_norm] and nothing else. *)
Lemma argus_cache_set_norm (a : Argus.t) :
  Argus.cache a = Argus.set_norm (Argus._norm (Argus.cache a)) a.
Proof. unfold Argus.cache. by destruct (_ =? _)%float. Qed.

(** The norm that [cache()] stores when no limit is set. *)
Lemma argus_cache_norm_without_limits (a : Argus.t) :
  Argus._hasLower a = false → Argus._hasUpper a = false →
  Argus._norm (Argus.cache a)
  = if (std_pow (Argus.chi a) 2 =? 0)%float
    then (std_pow (Argus.c a) 2 / 3 * (std_pow 1 1.5 - std_pow 0 1.5))%float
    else (std_pow (Argus.c a) 2 / (2 * std_pow (Argus.chi a) 3)
            * PrimFloat.sqrt (M_PI / 2)
          * (Math_gamma_p 1.5 (std_pow (Argus.chi a) 2 * 1)
             - Math_gamma_p 1.5 (std_pow (Argus.chi a) 2 * 0)))%float.
Proof.
  intros Hlo Hup. unfold Argus.cache. rewrite Hlo, Hup.
  by destruct (std_pow (Argus.chi a) 2 =? 0)%float.
Qed.

(** C9 (as amended).  For an Argus model without limits whose [_norm] is the
    one [cache()] computes from the current parameters, [area( min, max )]
    does not depend on [min] and [max].  When [chi^2 == 0] it is the quotient
    of [_norm] by itself: exactly 1.0 if [_norm] is a finite non-zero double,
    NaN otherwise.  When [chi^2 != 0] it is [A * ( D / ( A * D ) )] in double
    arithmetic, for the two factors [A] and [D] of [_norm]. *)
Theorem argus_area_without_limits (a : Argus.t) (min max : double) :
  let chiSq := std_pow (Argus.chi a) 2 in
  let A := (std_pow (Argus.c a) 2 / (2 * std_pow (Argus.chi a) 3)
            * PrimFloat.sqrt (M_PI / 2))%float in
  let D := (Math_gamma_p 1.5 (chiSq * 1) - Math_gamma_p 1.5 (chiSq * 0))%float in
  Argus._hasLower a = false →
  Argus._hasUpper a = false →
  Argus._norm a = Argus._norm (Argus.cache a) →
  (∀ min' max', Argus.area a min max = Argus.area a min' max')
  ∧ ((chiSq =? 0)%float = true →
       Argus.area a min max
       = if finite_nonzero (Argus._norm a) then 1%float else PrimFloat.nan)
  ∧ ((chiSq =? 0)%float = false →
       Argus._norm a = (A * D)%float
       ∧ Argus.area a min max = (A * (D / (A * D)))%float).
Proof.
  intros chiSq A D Hlo Hup Hnorm.
  rewrite argus_cache_norm_without_limits in Hnorm by done.
  fold chiSq A D in Hnorm.
  assert (Harea : ∀ x y, Argus.area a x y
            = if (chiSq =? 0)%float
              then (std_pow (Argus.c a) 2 / 3 * (std_pow 1 1.5 - std_pow 0 1.5)
                    / Argus._norm a)%float
              else (A * (D / Argus._norm a))%float).
  { intros x y. unfold Argus.area. rewrite Hlo, Hup. fold chiSq.
    by destruct (chiSq =? 0)%float. }
  split_and!.
  - intros min' max'. by rewrite !Harea.
  - intros Hzero. rewrite Harea. rewrite Hzero in Hnorm |- *.
    rewrite <- Hnorm. apply div_self.
  - intros Hnonzero. rewrite Harea. rewrite Hnonzero in Hnorm |- *.
    by rewrite Hnorm.
Qed.

(** On any libm that follows Annex F of the C standard at [pow( 0, 2 )],
    [pow( 1, 1.5 )] and [pow( 0, 1.5 )], an Argus model built with [c = 0] and
    [chi = 0] has the norm 0 and the area NaN, whatever [min] and [max]. *)
Lemma argus_area_degenerate (x : cfit_Variable) (pc pchi : cfit_Parameter)
    (min max : double) :
  par_value pc = 0%float → par_value pchi = 0%float →
  std_pow 0 2 = 0%float → std_pow 1 1.5 = 1%float → std_pow 0 1.5 = 0%float →
  Argus.area (Argus.new x pc pchi) min max = PrimFloat.nan.
Proof.
  intros Hc Hchi Hsq Hone Hzero.
  unfold Argus.new. set (a0 := Argus.mk _ _ _ _ _ _ _ _ _ _).
  rewrite argus_cache_set_norm, argus_cache_norm_without_limits by done.
  unfold Argus.area, Argus.set_norm, Argus.c, Argus.chi, ParameterExpr_of. cbn.
  rewrite Hc, Hchi, !Hsq, Hone, Hzero.
  reflexivity.
Qed.

End ArgusClaims.

(** ** Decay3BodyCP *)


(** C10.  After [setNormComponents( nDir, nXed )] on a model whose amplitude
    is fixed, [_nCnj] is the [nDir] that was passed, so [nCnj()] and
    [nDir()] return the same value. *)
Theorem setNormComponents2_conjugate_is_direct
    (d : Decay3BodyCP.t) (vDir : double) (vXed : complex) :
  Amplitude_isFixed (Decay3BodyCP._amp d) = true →
  let d' := Decay3BodyCP.setNormComponents2 vDir vXed d in
  Decay3BodyCP._nCnj d' = vDir
  ∧ Decay3BodyCP.nCnj d' = Decay3BodyCP.nDir d'.
Proof.
  intros Hfixed. unfold Decay3BodyCP.setNormComponents2. cbn.
  rewrite Hfixed. done.
Qed.

(** ** The properties on concrete models *)

Section Examples.
Import Fixtures.
#[local] Existing Instance RefLibm.libm.

(** The standard normal density at 0 is [1/sqrt(2 pi)], and the model has not
    cached anything when it leaves its constructor. *)
Example gauss01_at_zero :
  Gauss.evaluate gauss01 0 = 0x1.9884533d43651p-2%float
  ∧ Gauss._doCache gauss01 = false.
Proof. split; reflexivity. Qed.

(** C1 on the standard normal density, three entries, the entry [x = 0]. *)
Lemma gauss_cached_path_equals_direct_witness :
  cacheable gauss01 = true
  ∧ Gauss.evaluate_cached (Gauss.cacheReal gauss01 static0 data3).1.1
      [0%float] [Gauss.evaluate gauss01 0] []
    = Gauss.evaluate_vars (Gauss.cacheReal gauss01 static0 data3).1.1 [0%float].
Proof.
  split; [reflexivity|].
  apply (gauss_cached_path_equals_direct gauss01 static0 data3 1
           [0%float] [Gauss.evaluate gauss01 0] []).
  - reflexivity.
  - cbn. lia.
  - reflexivity.
  - intros idx vals Hlookup. rewrite cacheReal_unfold in Hlookup.
    change (cacheable gauss01) with true in Hlookup. cbn [snd] in Hlookup.
    unfold cached_under in Hlookup. cbn [ds_size data3] in Hlookup.
    apply lookup_singleton_Some in Hlookup as [<- <-]. reflexivity.
Defined.

(** C3 fails on a dataset without entries: the parameters are fixed and an
    index is taken from the counter, yet the returned map has no key. *)
Lemma cacheReal_empty_dataset_counterexample :
  cacheable gauss01 = true
  ∧ _cacheIdxReal (Gauss.cacheReal gauss01 static0 data0).1.2 = 1%N
  ∧ (Gauss.cacheReal gauss01 static0 data0).2 = ∅
  ∧ ¬ ∃ idx vals, (Gauss.cacheReal gauss01 static0 data0).2 = {[ idx := vals ]}.
Proof.
  split_and!; try reflexivity.
  intros (idx & vals & Heq).
  change ((Gauss.cacheReal gauss01 static0 data0).2) with (∅ : gmap N (list double)) in Heq.
  symmetry in Heq. by apply map_non_empty_singleton in Heq.
Qed.

(** C4 where the counter starts at 0: a fixed, a floating and a fixed model. *)
Lemma cache_indices_increase_until_wrap_witness :
  (_cacheIdxReal static0 < UINT_MOD)%N
  ∧ StronglySorted N.lt
      (assigned (cacheReal_all
         [(gauss01, data3); (gauss01_floating, data3); (gauss01, data0)] static0).1)
  ∧ NoDup
      (assigned (cacheReal_all
         [(gauss01, data3); (gauss01_floating, data3); (gauss01, data0)] static0).1).
Proof.
  assert (Hstart : (_cacheIdxReal static0 < UINT_MOD)%N) by reflexivity.
  split; [exact Hstart|].
  destruct (cache_indices_increase_until_wrap
              [(gauss01, data3); (gauss01_floating, data3); (gauss01, data0)]
              static0 Hstart) as [Hsorted Hnodup].
  split; [apply Hsorted | apply Hnodup]; vm_compute; discriminate.
Defined.

(** C4 fails when the counter wraps: with the counter at [2^32 - 1], two
    models that cache one after the other get the indices [4294967295] and
    [0], which do not increase. *)
Lemma cache_indices_wrap_counterexample :
  assigned (cacheReal_all [(gauss01, data0); (gauss01, data0)] static_last).1
  = [4294967295%N; 0%N]
  ∧ ¬ StronglySorted N.lt
        (assigned (cacheReal_all [(gauss01, data0); (gauss01, data0)] static_last).1).
Proof.
  assert (Heq : assigned (cacheReal_all [(gauss01, data0); (gauss01, data0)] static_last).1
                = [4294967295%N; 0%N]) by (vm_compute; reflexivity).
  split; [exact Heq|]. rewrite Heq. intros Hsorted.
  apply StronglySorted_inv in Hsorted as [_ Hall].
  apply Forall_inv in Hall. discriminate Hall.
Qed.

(** C5 fails for [Gauss::cache()]: the model is cached, [sigma] is released
    and [cache()] is run again; [_doCache] is still true, and the cached path
    returns what the slice holds at [_cacheIdx], here 7, and not the density
    [evaluate( vars )]. *)
Lemma gauss_cache_keeps_doCache_counterexample :
  let cached := (Gauss.cacheReal gauss01 static0 data3).1.1 in
  let released := Gauss.set_par 1 (setFixed false (Gauss.getPar cached 1)) cached in
  let g := Gauss.cache released in
  cacheable cached = true
  ∧ cacheable released = false
  ∧ Gauss._doCache g = true
  ∧ Gauss.evaluate_cached g [0%float] [7%float] [] = Some 7%float
  ∧ Gauss.evaluate_cached g [0%float] [7%float] [] ≠ Gauss.evaluate_vars g [0%float].
Proof.
  cbv zeta. split_and!; try reflexivity.
  intros Heq. apply (f_equal (from_option Prim2SF S754_nan)) in Heq.
  vm_compute in Heq. discriminate Heq.
Qed.


(** C7 on the standard normal density right after its construction. *)
Lemma evaluate_cached_without_cache_witness :
  Gauss._doCache gauss01 = false
  ∧ Gauss.evaluate_cached gauss01 [0%float] [7%float] []
    = Gauss.evaluate_vars gauss01 [0%float].
Proof.
  split; [reflexivity|].
  apply (evaluate_cached_without_cache gauss01 [0%float] [7%float] [] [] []).
  reflexivity.
Defined.

(** C9 on an Argus model with [c = 5] and [chi = 0]: the area is 1. *)
Lemma argus_area_without_limits_witness :
  Argus._hasLower (argus 5 0) = false
  ∧ Argus._hasUpper (argus 5 0) = false
  ∧ Argus._norm (argus 5 0) = Argus._norm (Argus.cache (argus 5 0))
  ∧ Argus.area (argus 5 0) 1 2 = 1%float.
Proof.
  assert (Hlo : Argus._hasLower (argus 5 0) = false) by reflexivity.
  assert (Hup : Argus._hasUpper (argus 5 0) = false) by reflexivity.
  assert (Hnorm : Argus._norm (argus 5 0) = Argus._norm (Argus.cache (argus 5 0)))
    by reflexivity.
  do 3 (split; [assumption|]).
  destruct (argus_area_without_limits (argus 5 0) 1 2 Hlo Hup Hnorm)
    as (_ & Hzero & _).
  rewrite Hzero; reflexivity.
Defined.

(** C9 fails on an Argus model with [c = 0] and [chi = 0]: it has no limits,
    its norm is up to date, and its area is NaN and not 1. *)
Lemma argus_area_degenerate_counterexample :
  Argus._hasLower (argus 0 0) = false
  ∧ Argus._hasUpper (argus 0 0) = false
  ∧ Argus._norm (argus 0 0) = Argus._norm (Argus.cache (argus 0 0))
  ∧ Argus.area (argus 0 0) 1 2 = PrimFloat.nan
  ∧ Argus.area (argus 0 0) 1 2 ≠ 1%float.
Proof.
  assert (Hnan : Argus.area (argus 0 0) 1 2 = PrimFloat.nan)
    by (by apply argus_area_degenerate).
  do 3 (split; [reflexivity|]). split; [exact Hnan|].
  rewrite Hnan. exact nan_neq_one.
Qed.

(** With [chi = 1] the two factors of the norm are rounded separately, and the
    reference libm gives an area one unit in the last place below 1. *)
Example argus_area_rounding :
  Argus.area (argus 5 1) 1 2 = 0x1.fffffffffffffp-1%float.
Proof. reflexivity. Qed.

(** C10 on a model whose amplitude has all its parameters fixed. *)
Lemma setNormComponents2_conjugate_is_direct_witness :
  Amplitude_isFixed (Decay3BodyCP._amp (decay true)) = true
  ∧ Decay3BodyCP.nCnj (Decay3BodyCP.setNormComponents2 3 (mkComplex 1 2) (decay true))
    = Decay3BodyCP.nDir (Decay3BodyCP.setNormComponents2 3 (mkComplex 1 2) (decay true)).
Proof.
  split; [reflexivity|].
  apply (setNormComponents2_conjugate_is_direct (decay true) 3 (mkComplex 1 2)).
  reflexivity.
Defined.

(** The same call on a model with a floating amplitude parameter changes
    none of the components. *)
Example setNormComponents_discarded :
  Decay3BodyCP.nDir (Decay3BodyCP.setNormComponents3 3 4 (mkComplex 1 2) (decay false)) = 1%float
  ∧ Decay3BodyCP.nCnj (Decay3BodyCP.setNormComponents2 3 (mkComplex 1 2) (decay false)) = 1%float.
Proof. split; reflexivity. Qed.

(** The Argus setters on concrete bounds. *)
Example argus_setLimits_negative :
  Argus.setLimits 1 (-2) (argus 5 0)
  = (argus 5 0, Argus.Thrown (PdfException_what Argus.upper_msg))
  ∧ (Argus.setLowerLimit (-0) (argus 5 0)).2 = Argus.Returned
  ∧ (Argus.setLowerLimit PrimFloat.nan (argus 5 0)).2 = Argus.Returned.
Proof. split_and!; reflexivity. Qed.

End Examples.

(** * Further properties of the embedded code *)

(** ** Doubles: NaN and the clamps *)

Lemma ltb_nan_l (y : double) : (PrimFloat.nan <? y)%float = false.
Proof. rewrite ltb_spec. reflexivity. Qed.

Lemma ltb_nan_r (x : double) : (x <? PrimFloat.nan)%float = false.
Proof.
  rewrite ltb_spec. change (Prim2SF PrimFloat.nan) with S754_nan.
  by destruct (Prim2SF x) as [[]|[]| |[] m e].
Qed.

Lemma mul_nan_l (y : double) : (PrimFloat.nan * y)%float = PrimFloat.nan.
Proof. apply Prim2SF_inj. rewrite mul_spec. reflexivity. Qed.

Lemma div_nan_l (y : double) : (PrimFloat.nan / y)%float = PrimFloat.nan.
Proof. apply Prim2SF_inj. rewrite div_spec. reflexivity. Qed.

(** Clamping twice against the same bound is clamping once. *)
Lemma std_max_idem (a b : double) : std_max (std_max a b) b = std_max a b.
Proof.
  unfold std_max. destruct (a <? b)%float eqn:Hab.
  - by destruct (b <? b)%float.
  - by rewrite Hab.
Qed.

Lemma std_min_idem (a b : double) : std_min (std_min a b) b = std_min a b.
Proof.
  unfold std_min. destruct (b <? a)%float eqn:Hba.
  - by destruct (b <? b)%float.
  - by rewrite Hba.
Qed.

Lemma std_max_self (a : double) : std_max a a = a.
Proof. unfold std_max. by destruct (a <? a)%float. Qed.

Lemma std_min_self (a : double) : std_min a a = a.
Proof. unfold std_min. by destruct (a <? a)%float. Qed.

Lemma std_max_below (a b : double) : (a <? b)%float = true → std_max a b = b.
Proof. intros Hlt. unfold std_max. by rewrite Hlt. Qed.

Lemma std_min_above (a b : double) : (b <? a)%float = true → std_min a b = b.
Proof. intros Hlt. unfold std_min. by rewrite Hlt. Qed.

(** A bound that is not negative is left alone by [std::max( bound, 0.0 )]. *)
Lemma std_max_zero_nonneg (x : double) :
  is_negative x = false → std_max x 0 = x.
Proof. intros Hx. unfold std_max. by rewrite ltb_zero_is_negative, Hx. Qed.

(** ** Gauss: limits, norm and cache *)

Section GaussMore.
Context {L : Libm}.

(** [cache()] reads the parameters and the limits, not the norm it replaces. *)
Lemma gauss_cache_idem (g : Gauss.t) : Gauss.cache (Gauss.cache g) = Gauss.cache g.
Proof. reflexivity. Qed.

Lemma gauss_cache_set_flags (g : Gauss.t) (b : bool) (i : N) :
  Gauss.cache (Gauss.set_cacheIdx i (Gauss.set_doCache b g))
  = Gauss.set_cacheIdx i (Gauss.set_doCache b (Gauss.cache g)).
Proof. reflexivity. Qed.

(** X1.  Every Gauss object obtained from the constructor, the limit members
    and [cacheReal] carries the norm of its current parameters and limits
    (running [cache()] once more changes nothing), and has [_doCache] set only
    if [mu] and [sigma] are fixed. *)
Theorem gauss_built_norm_fresh (g : Gauss.t) :
  Gauss_built g →
  Gauss.cache g = g ∧ (Gauss._doCache g = true → cacheable g = true).
Proof.
  induction 1 as [x pmu psigma | lower g Hg [IHn IHc] | upper g Hg [IHn IHc]
                 | lower upper g Hg [IHn IHc] | g Hg [IHn IHc] | g Hg [IHn IHc]
                 | g Hg [IHn IHc] | g st data Hg [IHn IHc]];
    try (split; [reflexivity | exact IHc]).
  - split; [reflexivity | discriminate].
  - rewrite cacheReal_unfold. destruct (cacheable g) eqn:Hfixed; cbn [fst].
    + split; [|done]. by rewrite gauss_cache_set_flags, IHn.
    + split; [|discriminate].
      change (Gauss.set_doCache false g)
        with (Gauss.set_cacheIdx (Gauss._cacheIdx g) (Gauss.set_doCache false g)).
      rewrite gauss_cache_set_flags, IHn. reflexivity.
Qed.

(** X2.  The limit setters of Gauss compose: setting the lower and the upper
    limit one after the other, in either order, leaves the object that
    [setLimits] leaves, and likewise for the three [unset] members. *)
Theorem gauss_limit_setters_compose (g : Gauss.t) (lower upper : double) :
  Gauss.setUpperLimit upper (Gauss.setLowerLimit lower g) = Gauss.setLimits lower upper g
  ∧ Gauss.setLowerLimit lower (Gauss.setUpperLimit upper g) = Gauss.setLimits lower upper g
  ∧ Gauss.unsetUpperLimit (Gauss.unsetLowerLimit g) = Gauss.unsetLimits g
  ∧ Gauss.unsetLowerLimit (Gauss.unsetUpperLimit g) = Gauss.unsetLimits g.
Proof. split_and!; reflexivity. Qed.

(** X3.  Setting limits and unsetting them again gives back the density and
    the area of the object without limits, with the same norm; the bounds
    themselves stay stored in [_lower] and [_upper]. *)
Theorem gauss_limits_round_trip (g : Gauss.t) (lower upper : double) :
  let g' := Gauss.unsetLimits (Gauss.setLimits lower upper g) in
  Gauss._norm g' = Gauss._norm (Gauss.unsetLimits g)
  ∧ (∀ x, Gauss.evaluate g' x = Gauss.evaluate (Gauss.unsetLimits g) x)
  ∧ (∀ min max, Gauss.area g' min max = Gauss.area (Gauss.unsetLimits g) min max)
  ∧ Gauss._lower g' = lower ∧ Gauss._upper g' = upper.
Proof. cbv zeta. split_and!; reflexivity. Qed.

(** X4.  The limit members do not refresh the cache: on a model with
    [_doCache] set, after any of them the cached path still returns what the
    slice holds at the model's index, whatever [vars] is, although the norm
    has been recomputed. *)
Theorem gauss_limits_keep_cached_path
    (g : Gauss.t) (lower upper : double) (vars cacheR : list double)
    (cacheC : list complex) :
  Gauss._doCache g = true →
  Forall (λ g', Gauss.evaluate_cached g' vars cacheR cacheC
                = cacheR !! N.to_nat (Gauss._cacheIdx g))
    [Gauss.setLowerLimit lower g; Gauss.setUpperLimit upper g;
     Gauss.setLimits lower upper g; Gauss.unsetLowerLimit g;
     Gauss.unsetUpperLimit g; Gauss.unsetLimits g].
Proof.
  intros Hflag. repeat constructor; unfold Gauss.evaluate_cached; cbn; by rewrite Hflag.
Qed.

(** X5.  [cacheReal] changes the cache flag and index of the model and
    nothing the density depends on; it keeps the real counter a valid
    [unsigned], leaves it alone when the model does not cache, and never
    touches the complex counter. *)
Theorem cacheReal_frame (g : Gauss.t) (st : PdfBase_static) (data : Dataset) :
  let g' := (Gauss.cacheReal g st data).1.1 in
  let st' := (Gauss.cacheReal g st data).1.2 in
  (∀ x, Gauss.evaluate g' x = Gauss.evaluate g x)
  ∧ (∀ min max, Gauss.area g' min max = Gauss.area g min max)
  ∧ Gauss.set_cacheIdx (Gauss._cacheIdx g) (Gauss.set_doCache (Gauss._doCache g) g') = g
  ∧ Gauss._doCache g' = cacheable g
  ∧ _cacheIdxComplex st' = _cacheIdxComplex st
  ∧ ((_cacheIdxReal st < UINT_MOD)%N → (_cacheIdxReal st' < UINT_MOD)%N)
  ∧ (cacheable g = false → st' = st ∧ Gauss._cacheIdx g' = Gauss._cacheIdx g).
Proof.
  cbv zeta. rewrite cacheReal_unfold.
  destruct (cacheable g) eqn:Hfixed; cbn [fst snd]; destruct g;
    split_and!; try done; intros; apply uint_succ_lt.
Qed.

(** X6.  [Gauss::area] clamps its arguments to the limits that are set: the
    area between [min] and [max] is the area between the clamped bounds, so
    every [min] below a lower limit gives the same area as the limit itself. *)
Theorem gauss_area_clamps (g : Gauss.t) (min max : double) :
  let xmin := if Gauss._hasLower g then std_max min (Gauss._lower g) else min in
  let xmax := if Gauss._hasUpper g then std_min max (Gauss._upper g) else max in
  Gauss.area g min max = Gauss.area g xmin xmax
  ∧ (Gauss._hasLower g = true → (min <? Gauss._lower g)%float = true →
       Gauss.area g min max = Gauss.area g (Gauss._lower g) max)
  ∧ (Gauss._hasUpper g = true → (Gauss._upper g <? max)%float = true →
       Gauss.area g min max = Gauss.area g min (Gauss._upper g)).
Proof.
  cbv zeta. unfold Gauss.area. split_and!.
  - destruct (Gauss._hasLower g), (Gauss._hasUpper g);
      by rewrite ?std_max_idem, ?std_min_idem.
  - intros Hlo Hlt. rewrite Hlo.
    by rewrite (std_max_below _ _ Hlt), std_max_self.
  - intros Hup Hlt. rewrite Hup.
    by rewrite (std_min_above _ _ Hlt), std_min_self.
Qed.

(** X7.  After a session of [cacheReal] calls every model is still there, the
    real counter has advanced, modulo [2^32], by the number of models with all
    parameters fixed, and the complex counter is where it was. *)
Theorem cacheReal_all_counter (calls : list (Gauss.t * Dataset)) (st : PdfBase_static) :
  let n := length (filter (λ g, cacheable g = true) (map fst calls)) in
  (_cacheIdxReal st < UINT_MOD)%N →
  length (cacheReal_all calls st).1 = length calls
  ∧ _cacheIdxReal (cacheReal_all calls st).2 = nth_index (_cacheIdxReal st) n
  ∧ _cacheIdxComplex (cacheReal_all calls st).2 = _cacheIdxComplex st.
Proof.
  cbv zeta. revert st.
  induction calls as [|[g data] rest IH]; intros st Hst.
  - cbn. split_and!; try done. unfold nth_index.
    rewrite N.add_0_r. symmetry. by apply N.mod_small.
  - cbn [cacheReal_all map fst]. rewrite cacheReal_unfold.
    destruct (cacheable g) eqn:Hfixed.
    + rewrite filter_cons_True by done.
      specialize (IH (mkStatic (uint_succ (_cacheIdxReal st)) (_cacheIdxComplex st))
                     (uint_succ_lt _)).
      destruct (cacheReal_all rest _) as [gs st''].
      cbn [fst snd length _cacheIdxReal _cacheIdxComplex] in *.
      destruct IH as (Hlen & Hreal & Hcomplex).
      split_and!; [by rewrite Hlen | | done].
      rewrite Hreal. apply nth_index_succ.
    + rewrite filter_cons_False by (by rewrite Hfixed).
      specialize (IH st Hst). destruct (cacheReal_all rest st) as [gs st''].
      cbn [fst snd length] in *. destruct IH as (Hlen & Hreal & Hcomplex).
      split_and!; [by rewrite Hlen | done | done].
Qed.

End GaussMore.

(** ** Minimizer: the storage and the cached path *)

Section MinimizerMore.
Context {L : Libm}.

Lemma cached_under_dom (idx : N) (g : Gauss.t) (data : Dataset) :
  dom (cached_under idx g data) ⊆ ({[ idx ]} : gset N).
Proof.
  unfold cached_under. destruct (ds_size data); [set_solver|].
  by rewrite dom_singleton_L.
Qed.

(** X8.  A [Minimizer::cache()] that returns (the [cacheComplex] of the model
    does), on a storage that has no entry under the index the model is about
    to take: afterwards, for every entry of the dataset, the cached path of
    the model on the entry's slice of [_cacheR] returns the value of the
    direct [evaluate( vars )]. *)
Theorem minimizer_cache_then_evaluate
    (cacheComplex : Dataset → option (gmap N (list complex)))
    (m m' : Minimizer.t) (st st' : PdfBase_static) (entry : nat)
    (vars cacheR : list double) (cacheC : list complex) :
  let pdf := Minimizer._pdf m' in
  Minimizer.cache cacheComplex m st = Some (m', st') →
  cacheable (Minimizer._pdf m) = true →
  Minimizer._cacheR m !! _cacheIdxReal st = None →
  entry < ds_size (Minimizer._data m) →
  vars !! 0%nat
    = Some (ds_value (Minimizer._data m) (var_name (Gauss.getVar pdf 0)) entry) →
  Minimizer.is_slice cacheR (Minimizer._cacheR m') entry →
  Gauss.evaluate_cached pdf vars cacheR cacheC = Gauss.evaluate_vars pdf vars
  ∧ is_Some (Gauss.evaluate_vars pdf vars).
Proof.
  cbv zeta. intros (cachedC & _ & -> & ->)%minimizer_cache_Some.
  rewrite cacheReal_unfold.
  intros Hfixed Hfresh Hentry Hvars Hslice. rewrite Hfixed in *.
  cbn [fst snd Minimizer._pdf Minimizer._cacheR] in *.
  unfold Gauss.evaluate_vars at 1 2. rewrite Hvars.
  split; [|by eexists]. unfold Gauss.evaluate_cached. cbn.
  assert (Hsize : ds_size (Minimizer._data m) ≠ 0%nat) by lia.
  rewrite (Hslice (_cacheIdxReal st)
             (entry_values (Minimizer._pdf m) (Minimizer._data m)))
    by (by apply union_cached_under_absent).
  rewrite entry_values_lookup by lia. reflexivity.
Qed.

(** X9.  A [Minimizer::cache()] that returns, on a storage that already has an
    entry under the index the model takes: [insert] keeps the old sequence,
    the new values are dropped, and the cached path of the model on a slice
    of [_cacheR] returns the old sequence's value for the entry. *)
Theorem minimizer_cache_keeps_stale_entry
    (cacheComplex : Dataset → option (gmap N (list complex)))
    (m m' : Minimizer.t) (st st' : PdfBase_static) (old : list double) (entry : nat)
    (vars cacheR : list double) (cacheC : list complex) :
  let pdf := Minimizer._pdf m' in
  Minimizer.cache cacheComplex m st = Some (m', st') →
  cacheable (Minimizer._pdf m) = true →
  Minimizer._cacheR m !! _cacheIdxReal st = Some old →
  Minimizer.is_slice cacheR (Minimizer._cacheR m') entry →
  Minimizer._cacheR m' = Minimizer._cacheR m
  ∧ Gauss._cacheIdx pdf = _cacheIdxReal st
  ∧ Gauss.evaluate_cached pdf vars cacheR cacheC = old !! entry.
Proof.
  cbv zeta. intros (cachedC & _ & -> & ->)%minimizer_cache_Some.
  rewrite cacheReal_unfold.
  intros Hfixed Hold Hslice. rewrite Hfixed in *.
  cbn [fst snd Minimizer._pdf Minimizer._cacheR] in *.
  rewrite union_cached_under_present in * by (by eexists).
  split_and!; [done|done|].
  unfold Gauss.evaluate_cached. cbn. apply (Hslice _ _ Hold).
Qed.

(** X10.  [Minimizer::cache()] is defined exactly when the [cacheComplex] of
    the model returns, and undefined with the body of
    [PdfBase::cacheComplex].  When it returns it has dropped or changed no
    entry of [_cacheR] or [_cacheC], added no key to [_cacheR] other than the
    index the counter stood at, and left [_data] and [_up] alone; with a
    floating parameter in the model [_cacheR] and the counters are as they
    were. *)
Theorem minimizer_cache_storage_grows
    (cacheComplex : Dataset → option (gmap N (list complex)))
    (m m' : Minimizer.t) (st st' : PdfBase_static) :
  (Minimizer.cache cacheComplex m st = None
   ↔ cacheComplex (Minimizer._data m) = None)
  ∧ Minimizer.cache PdfBase_cacheComplex m st = None
  ∧ (Minimizer.cache cacheComplex m st = Some (m', st') →
     Minimizer._cacheR m ⊆ Minimizer._cacheR m'
     ∧ dom (Minimizer._cacheR m') ⊆ dom (Minimizer._cacheR m) ∪ {[ _cacheIdxReal st ]}
     ∧ Minimizer._cacheC m ⊆ Minimizer._cacheC m'
     ∧ Minimizer._data m' = Minimizer._data m
     ∧ Minimizer._up m' = Minimizer._up m
     ∧ (cacheable (Minimizer._pdf m) = false →
          Minimizer._cacheR m' = Minimizer._cacheR m ∧ st' = st)).
Proof.
  split_and!.
  - apply minimizer_cache_None.
  - by apply minimizer_cache_None.
  - intros (cachedC & _ & -> & ->)%minimizer_cache_Some.
    rewrite cacheReal_unfold.
    destruct (cacheable (Minimizer._pdf m)) eqn:Hfixed;
      cbn [fst snd Minimizer._pdf Minimizer._cacheR Minimizer._cacheC
           Minimizer._data Minimizer._up].
    + split_and!; try done.
      * apply map_union_subseteq_l.
      * rewrite dom_union_L. apply union_mono_l, cached_under_dom.
      * apply map_union_subseteq_l.
    + rewrite (right_id_L ∅ (∪)). split_and!; try done.
      * apply union_subseteq_l.
      * apply map_union_subseteq_l.
Qed.

End MinimizerMore.

(** ** Argus: support, limits and area *)

Section ArgusMore.
Context {L : Libm}.

Lemma argus_cache_of_set_norm (a : Argus.t) (v : double) :
  Argus.cache (Argus.set_norm v a) = Argus.cache a.
Proof. reflexivity. Qed.

Lemma argus_cache_idem (a : Argus.t) : Argus.cache (Argus.cache a) = Argus.cache a.
Proof. by rewrite (argus_cache_set_norm a) at 1; rewrite argus_cache_of_set_norm. Qed.

(** X11.  Every Argus object obtained from the constructor and the limit
    members carries the norm of its current parameters and limits, and its
    stored bounds are never negative, so that the [std::max( _lower, 0.0 )] of
    [cache()] and [area] returns [_lower] itself. *)
Theorem argus_built_invariant (a : Argus.t) :
  Argus_built a →
  Argus.cache a = a
  ∧ is_negative (Argus._lower a) = false
  ∧ is_negative (Argus._upper a) = false
  ∧ std_max (Argus._lower a) 0 = Argus._lower a.
Proof.
  intros Hbuilt.
  assert (Hinv : Argus.cache a = a ∧ is_negative (Argus._lower a) = false
                 ∧ is_negative (Argus._upper a) = false).
  { induction Hbuilt as [x pc pchi | lower a Ha (IHn & IHl & IHu)
                        | upper a Ha (IHn & IHl & IHu)
                        | lower upper a Ha (IHn & IHl & IHu)
                        | a Ha (IHn & IHl & IHu) | a Ha (IHn & IHl & IHu)
                        | a Ha (IHn & IHl & IHu)].
    - unfold Argus.new. rewrite argus_cache_idem.
      rewrite argus_cache_set_norm. done.
    - unfold Argus.setLowerLimit. rewrite ltb_zero_is_negative.
      destruct (is_negative lower) eqn:Hneg; cbn [fst]; [done|].
      rewrite argus_cache_idem. rewrite argus_cache_set_norm. done.
    - unfold Argus.setUpperLimit. rewrite ltb_zero_is_negative.
      destruct (is_negative upper) eqn:Hneg; cbn [fst]; [done|].
      rewrite argus_cache_idem. rewrite argus_cache_set_norm. done.
    - unfold Argus.setLimits. rewrite !ltb_zero_is_negative.
      destruct (is_negative lower) eqn:Hlo; cbn [fst]; [done|].
      destruct (is_negative upper) eqn:Hup; cbn [fst]; [done|].
      rewrite argus_cache_idem. rewrite argus_cache_set_norm. done.
    - unfold Argus.unsetLowerLimit. rewrite argus_cache_idem.
      rewrite argus_cache_set_norm. done.
    - unfold Argus.unsetUpperLimit. rewrite argus_cache_idem.
      rewrite argus_cache_set_norm. done.
    - unfold Argus.unsetLimits. rewrite argus_cache_idem.
      rewrite argus_cache_set_norm. done. }
  destruct Hinv as (Hn & Hl & Hu). split_and!; try done.
  by apply std_max_zero_nonneg.
Qed.

(** X12.  [Argus::evaluate] returns exactly 0.0 at a negative point, at a point
    above [c], and at a point beyond a limit that is set. *)
Theorem argus_evaluate_outside_support (a : Argus.t) (x : double) :
  is_negative x = true
  ∨ (Argus.c a <? x)%float = true
  ∨ (Argus._hasLower a = true ∧ (x <? Argus._lower a)%float = true)
  ∨ (Argus._hasUpper a = true ∧ (Argus._upper a <? x)%float = true) →
  Argus.evaluate a x = 0%float.
Proof.
  intros Hout. unfold Argus.evaluate. rewrite ltb_zero_is_negative.
  destruct (Argus._hasLower a && (x <? Argus._lower a)%float) eqn:Hg1; [done|].
  destruct (Argus._hasUpper a && (Argus._upper a <? x)%float) eqn:Hg2; [done|].
  destruct Hout as [Hneg | [Hc | [[Hf Hlt] | [Hf Hlt]]]].
  - by rewrite Hneg.
  - by rewrite Hc, orb_true_r.
  - by rewrite Hf, Hlt in Hg1.
  - by rewrite Hf, Hlt in Hg2.
Qed.

(** X13.  None of the guards of [Argus::evaluate] rejects NaN: at NaN the
    result is NaN, whatever the model and its limits. *)
Theorem argus_evaluate_nan (a : Argus.t) :
  Argus.evaluate a PrimFloat.nan = PrimFloat.nan.
Proof.
  unfold Argus.evaluate.
  rewrite ltb_nan_l, !ltb_nan_r, !andb_false_r. cbn [orb].
  rewrite ltb_nan_l. by rewrite !mul_nan_l, div_nan_l.
Qed.

(** X14.  [setLimits] checks both bounds before it writes anything.  A
    negative lower bound is reported first.  With a valid lower and a negative
    upper bound [setLimits] leaves the object as it was, while
    [setLowerLimit] followed by [setUpperLimit] throws with the lower limit
    already set.  With two valid bounds the two ways agree, in either
    order. *)
Theorem argus_setLimits_all_or_nothing (a : Argus.t) (lower upper : double) :
  (is_negative lower = true →
     Argus.setLimits lower upper a
     = (a, Argus.Thrown (PdfException_what Argus.lower_msg)))
  ∧ (is_negative lower = false → is_negative upper = true →
       Argus.setLimits lower upper a
       = (a, Argus.Thrown (PdfException_what Argus.upper_msg))
       ∧ Argus.setUpperLimit upper (Argus.setLowerLimit lower a).1
         = ((Argus.setLowerLimit lower a).1,
            Argus.Thrown (PdfException_what Argus.upper_msg))
       ∧ Argus._hasLower (Argus.setLowerLimit lower a).1 = true
       ∧ Argus._lower (Argus.setLowerLimit lower a).1 = lower)
  ∧ (is_negative lower = false → is_negative upper = false →
       Argus.setUpperLimit upper (Argus.setLowerLimit lower a).1
       = Argus.setLimits lower upper a
       ∧ Argus.setLowerLimit lower (Argus.setUpperLimit upper a).1
         = Argus.setLimits lower upper a).
Proof.
  unfold Argus.setLimits, Argus.setUpperLimit, Argus.setLowerLimit.
  rewrite !ltb_zero_is_negative.
  split_and!.
  - by intros ->.
  - intros -> ->. cbn [fst]. split_and!; try done.
    + rewrite argus_cache_set_norm. reflexivity.
    + rewrite argus_cache_set_norm. reflexivity.
  - intros -> ->. cbn [fst]. split; f_equal.
    + rewrite (argus_cache_set_norm (Argus.set_limits true _ _ _ a)). reflexivity.
    + rewrite (argus_cache_set_norm (Argus.set_limits _ true _ _ a)). reflexivity.
Qed.

(** X15.  [Argus::area] uses [max] only when an upper limit is set and [min]
    only when a lower limit is set: without an upper limit the area does not
    depend on [max], without a lower limit it does not depend on [min]. *)
Theorem argus_area_ignores_unlimited_side (a : Argus.t) (min max min' max' : double) :
  (Argus._hasUpper a = false → Argus.area a min max = Argus.area a min max')
  ∧ (Argus._hasLower a = false → Argus.area a min max = Argus.area a min' max).
Proof.
  unfold Argus.area. split; intros Hoff; by rewrite Hoff.
Qed.

(** X16.  [Argus::area] clamps its arguments to the bounds it integrates
    between: the area between [min] and [max] is the area between the clamped
    arguments. *)
Theorem argus_area_clamps (a : Argus.t) (min max : double) :
  Argus.area a min max
  = Argus.area a (std_max min (Argus_lower a)) (std_min max (Argus_upper a)).
Proof.
  unfold Argus.area, Argus_lower, Argus_upper.
  by rewrite std_max_idem, std_min_idem.
Qed.

(** X17.  For an Argus model with [chi^2 == 0] and an up-to-date norm, the
    area over any range that covers the truncated support (the clamped
    arguments are the bounds themselves) is the quotient of [_norm] by
    itself: exactly 1.0 when [_norm] is a finite non-zero double, NaN
    otherwise.  The range from the lower to the upper bound is such a
    range. *)
Theorem argus_area_full_support (a : Argus.t) (min max : double) :
  Argus._norm a = Argus._norm (Argus.cache a) →
  (std_pow (Argus.chi a) 2 =? 0)%float = true →
  ((Argus._hasLower a = true → std_max min (Argus_lower a) = Argus_lower a) →
   (Argus._hasUpper a = true → std_min max (Argus_upper a) = Argus_upper a) →
   Argus.area a min max
   = if finite_nonzero (Argus._norm a) then 1%float else PrimFloat.nan)
  ∧ Argus.area a (Argus_lower a) (Argus_upper a)
    = if finite_nonzero (Argus._norm a) then 1%float else PrimFloat.nan.
Proof.
  intros Hnorm Hzero.
  assert (Hgen : ∀ xmin xmax,
            (Argus._hasLower a = true → std_max xmin (Argus_lower a) = Argus_lower a) →
            (Argus._hasUpper a = true → std_min xmax (Argus_upper a) = Argus_upper a) →
            Argus.area a xmin xmax
            = if finite_nonzero (Argus._norm a) then 1%float else PrimFloat.nan).
  { intros xmin xmax Hlo Hup. rewrite <- div_self.
    unfold Argus.cache in Hnorm. rewrite Hzero in Hnorm. cbn in Hnorm.
    unfold Argus.area. rewrite Hzero.
    unfold Argus_lower, Argus_upper in Hlo, Hup.
    destruct (Argus._hasLower a), (Argus._hasUpper a);
      rewrite ?Hlo, ?Hup by done; by rewrite <- Hnorm. }
  split; [apply Hgen|].
  apply Hgen; intros _; [apply std_max_self | apply std_min_self].
Qed.

(** After [unsetLimits] the norm, the density and the area depend on [_c] and
    [_chi] alone. *)
Lemma argus_unsetLimits_ext (a1 a2 : Argus.t) :
  Argus._c a1 = Argus._c a2 → Argus._chi a1 = Argus._chi a2 →
  Argus._norm (Argus.unsetLimits a1) = Argus._norm (Argus.unsetLimits a2)
  ∧ (∀ x, Argus.evaluate (Argus.unsetLimits a1) x
          = Argus.evaluate (Argus.unsetLimits a2) x)
  ∧ (∀ min max, Argus.area (Argus.unsetLimits a1) min max
                = Argus.area (Argus.unsetLimits a2) min max).
Proof.
  intros Hc Hchi. unfold Argus.unsetLimits.
  assert (Hn : Argus._norm (Argus.cache (Argus.set_limits false false
                  (Argus._lower a1) (Argus._upper a1) a1))
               = Argus._norm (Argus.cache (Argus.set_limits false false
                  (Argus._lower a2) (Argus._upper a2) a2))).
  { rewrite !argus_cache_norm_without_limits by done.
    unfold Argus.c, Argus.chi. cbn. by rewrite Hc, Hchi. }
  rewrite (argus_cache_set_norm (Argus.set_limits false false _ _ a1)).
  rewrite (argus_cache_set_norm (Argus.set_limits false false _ _ a2)).
  rewrite Hn. split_and!; [done | intros x | intros min max].
  - unfold Argus.evaluate, Argus.c, Argus.chi. cbn. by rewrite Hc, Hchi.
  - unfold Argus.area, Argus.c, Argus.chi. cbn. by rewrite Hc, Hchi.
Qed.

(** X18.  Setting limits on an Argus model and unsetting them again gives
    back the norm, the density and the area of the model without limits,
    whether the setter returned or threw. *)
Theorem argus_limits_round_trip (a : Argus.t) (lower upper : double) :
  let a' := Argus.unsetLimits (Argus.setLimits lower upper a).1 in
  Argus._norm a' = Argus._norm (Argus.unsetLimits a)
  ∧ (∀ x, Argus.evaluate a' x = Argus.evaluate (Argus.unsetLimits a) x)
  ∧ (∀ min max, Argus.area a' min max = Argus.area (Argus.unsetLimits a) min max).
Proof.
  cbv zeta. apply argus_unsetLimits_ext.
  - unfold Argus.setLimits.
    destruct (lower <? 0)%float; [done|]. destruct (upper <? 0)%float; [done|].
    cbn [fst]. by rewrite argus_cache_set_norm.
  - unfold Argus.setLimits.
    destruct (lower <? 0)%float; [done|]. destruct (upper <? 0)%float; [done|].
    cbn [fst]. by rewrite argus_cache_set_norm.
Qed.

End ArgusMore.

(** ** Decay3BodyCP and PdfBase *)


(** X20.  [PdfBase::isFixed()] is true exactly when every parameter in
    [_parMap] is fixed.  It is true for a model without parameters, and false
    as soon as one entry of the map holds a floating parameter. *)
Theorem pdfbase_isFixed_all (b : PdfBase.t) :
  (PdfBase.isFixed b = true
   ↔ ∀ name p, PdfBase._parMap b !! name = Some p → isFixed p = true)
  ∧ (PdfBase._parMap b = ∅ → PdfBase.isFixed b = true)
  ∧ (∀ name p, isFixed p = false →
       PdfBase.isFixed (PdfBase.mk (PdfBase._varMap b) (<[ name := p ]> (PdfBase._parMap b)))
       = false).
Proof.
  assert (Hspec : ∀ b', PdfBase.isFixed b' = true
            ↔ ∀ name p, PdfBase._parMap b' !! name = Some p → isFixed p = true).
  { intros b'. unfold PdfBase.isFixed. rewrite forallb_forall. split.
    - intros Hall name p Hlookup.
      apply (Hall (name, p)), list_elem_of_In, elem_of_map_to_list, Hlookup.
    - intros Hall [name p] Hin%list_elem_of_In%elem_of_map_to_list.
      by apply (Hall name p). }
  split_and!.
  - apply Hspec.
  - intros Hempty. apply Hspec. intros name p. by rewrite Hempty, lookup_empty.
  - intros name p Hfloat. apply not_true_is_false. intros Hall.
    pose proof (proj1 (Hspec _) Hall name p) as Hp. cbn in Hp.
    rewrite lookup_insert_eq in Hp. specialize (Hp eq_refl). congruence.
Qed.

(** ** The further properties on concrete models *)

Section MoreExamples.
Import Fixtures.
#[local] Existing Instance RefLibm.libm.

(** X1 on the standard normal density after it has been cached. *)
Lemma gauss_built_norm_fresh_witness :
  Gauss_built gauss01_cached ∧ Gauss.cache gauss01_cached = gauss01_cached.
Proof.
  assert (Hbuilt : Gauss_built gauss01_cached).
  { unfold gauss01_cached, gauss01.
    apply Gauss_built_cacheReal, Gauss_built_new. }
  split; [exact Hbuilt|]. apply (gauss_built_norm_fresh gauss01_cached Hbuilt).
Defined.

(** X4 on the cached standard normal density: the slice value 7 is returned
    after limits have been set, and the direct value has changed with the
    norm. *)
Lemma gauss_limits_keep_cached_path_witness :
  Gauss._doCache gauss01_cached = true
  ∧ Gauss.evaluate_cached (Gauss.setLimits (-1) 1 gauss01_cached) [0%float] [7%float] []
    = Some 7%float.
Proof.
  assert (Hflag : Gauss._doCache gauss01_cached = true) by reflexivity.
  split; [exact Hflag|].
  pose proof (gauss_limits_keep_cached_path gauss01_cached (-1) 1
                [0%float] [7%float] [] Hflag) as Hall.
  apply Forall_cons_1 in Hall as [_ Hall].
  apply Forall_cons_1 in Hall as [_ Hall].
  apply Forall_cons_1 in Hall as [Hset _].
  exact Hset.
Defined.

Example gauss_direct_value_changes_with_limits :
  Gauss.evaluate (Gauss.setLimits (-1) 1 gauss01_cached) 0
  ≠ Gauss.evaluate gauss01_cached 0.
Proof.
  intros Heq. apply (f_equal Prim2SF) in Heq. vm_compute in Heq. discriminate Heq.
Qed.

(** X7 on a session of three calls, two of them by models that cache. *)
Lemma cacheReal_all_counter_witness :
  (_cacheIdxReal static0 < UINT_MOD)%N
  ∧ _cacheIdxReal (cacheReal_all
      [(gauss01, data3); (gauss01_floating, data3); (gauss01, data0)] static0).2
    = 2%N.
Proof.
  assert (Hstart : (_cacheIdxReal static0 < UINT_MOD)%N) by reflexivity.
  split; [exact Hstart|].
  destruct (cacheReal_all_counter
              [(gauss01, data3); (gauss01_floating, data3); (gauss01, data0)]
              static0 Hstart) as (_ & Hreal & _).
  rewrite Hreal. reflexivity.
Defined.


(** X8 on the new minimizer, the entry [x = 0]. *)
Lemma minimizer_cache_then_evaluate_witness :
  Minimizer.cache cacheComplex_empty minimizer0 static0 = Some once
  ∧ cacheable gauss01 = true
  ∧ Gauss.evaluate_cached (Minimizer._pdf once.1)
      [0%float] [Gauss.evaluate gauss01 0] []
    = Gauss.evaluate_vars (Minimizer._pdf once.1) [0%float].
Proof.
  assert (Hcache : Minimizer.cache cacheComplex_empty minimizer0 static0
                   = Some (once.1, once.2)) by reflexivity.
  do 2 (split; [reflexivity|]).
  apply (minimizer_cache_then_evaluate cacheComplex_empty minimizer0 once.1
           static0 once.2 1 [0%float] [Gauss.evaluate gauss01 0] [] Hcache).
  - reflexivity.
  - reflexivity.
  - cbn. lia.
  - reflexivity.
  - intros idx vals Hlookup.
    assert (Hstore : Minimizer._cacheR once.1
                     = {[ 0%N := entry_values gauss01 data3 ]})
      by (vm_compute; reflexivity).
    rewrite Hstore in Hlookup.
    apply lookup_singleton_Some in Hlookup as [<- <-]. reflexivity.
Defined.

(** X9 on the minimizer whose storage already holds [7, 8, 9] under the
    index 0 that the model is about to take. *)
Lemma minimizer_cache_keeps_stale_entry_witness :
  Minimizer.cache cacheComplex_empty minimizer_stale static0 = Some after_stale
  ∧ cacheable gauss01 = true
  ∧ Gauss.evaluate_cached (Minimizer._pdf after_stale.1) [0%float] [8%float] []
    = Some 8%float
  ∧ Gauss.evaluate_vars (Minimizer._pdf after_stale.1) [0%float]
    = Some (Gauss.evaluate gauss01 0).
Proof.
  assert (Hcache : Minimizer.cache cacheComplex_empty minimizer_stale static0
                   = Some (after_stale.1, after_stale.2)) by reflexivity.
  do 2 (split; [reflexivity|]). split; [|reflexivity].
  assert (Hold : Minimizer._cacheR minimizer_stale !! _cacheIdxReal static0
                 = Some [7%float; 8%float; 9%float]) by apply lookup_singleton_eq.
  assert (Hfixed : cacheable (Minimizer._pdf minimizer_stale) = true) by reflexivity.
  assert (Hstore : Minimizer._cacheR after_stale.1
                   = {[ 0%N := [7%float; 8%float; 9%float] ]})
    by (vm_compute; reflexivity).
  destruct (minimizer_cache_keeps_stale_entry cacheComplex_empty minimizer_stale
              after_stale.1 static0 after_stale.2 [7%float; 8%float; 9%float] 1
              [0%float] [8%float] [] Hcache Hfixed Hold) as (_ & _ & Hread).
  - intros idx vals Hlookup. rewrite Hstore in Hlookup.
    apply lookup_singleton_Some in Hlookup as [<- <-]. reflexivity.
  - exact Hread.
Defined.

(** X10 on the new minimizer: with the body of [PdfBase::cacheComplex] the
    call is undefined; when [cacheComplex] returns, the one key is 0. *)
Lemma minimizer_cache_storage_grows_witness :
  Minimizer.cache PdfBase_cacheComplex minimizer0 static0 = None
  ∧ Minimizer.cache cacheComplex_empty minimizer0 static0 = Some once
  ∧ dom (Minimizer._cacheR once.1) ⊆ dom (Minimizer._cacheR minimizer0) ∪ {[ 0%N ]}.
Proof.
  assert (Hcache : Minimizer.cache cacheComplex_empty minimizer0 static0
                   = Some (once.1, once.2)) by reflexivity.
  do 2 (split; [reflexivity|]).
  destruct (minimizer_cache_storage_grows cacheComplex_empty minimizer0 once.1
              static0 once.2) as (_ & _ & Hgrows).
  destruct (Hgrows Hcache) as (_ & Hdom & _). exact Hdom.
Defined.

(** X11 on the Argus model truncated to [1, 4]. *)
Lemma argus_built_invariant_witness :
  Argus_built argus_1_4 ∧ Argus.cache argus_1_4 = argus_1_4.
Proof.
  assert (Hbuilt : Argus_built argus_1_4).
  { unfold argus_1_4, argus. apply Argus_built_setLimits, Argus_built_new. }
  split; [exact Hbuilt|]. apply (argus_built_invariant argus_1_4 Hbuilt).
Defined.

(** X12 on the Argus model with [c = 5]: the density at -1 and at 6. *)
Lemma argus_evaluate_outside_support_witness :
  is_negative (-1)%float = true
  ∧ Argus.evaluate (argus 5 0) (-1) = 0%float.
Proof.
  assert (Hneg : is_negative (-1)%float = true) by reflexivity.
  split; [exact Hneg|].
  apply (argus_evaluate_outside_support (argus 5 0) (-1)). by left.
Defined.

(** X17 on the Argus model truncated to [1, 4]: the area between 0 and 10. *)
Lemma argus_area_full_support_witness :
  Argus._norm argus_1_4 = Argus._norm (Argus.cache argus_1_4)
  ∧ Argus.area argus_1_4 0 10 = 1%float.
Proof.
  assert (Hnorm : Argus._norm argus_1_4 = Argus._norm (Argus.cache argus_1_4))
    by reflexivity.
  assert (Hzero : (std_pow (Argus.chi argus_1_4) 2 =? 0)%float = true) by reflexivity.
  split; [exact Hnorm|].
  destruct (argus_area_full_support argus_1_4 0 10 Hnorm Hzero) as [Hcover _].
  rewrite Hcover; reflexivity.
Defined.

(** X20 on a base object with one floating parameter. *)
Example pdfbase_isFixed_base2 :
  PdfBase.isFixed base2 = false ∧ PdfBase.nPars base2 = 2%N.
Proof. split; vm_compute; reflexivity. Qed.

End MoreExamples.
